(** * Pong championship relay server: the session registry and its router

    A shallow embedding of [src/server.js]: the [GameManager] class (the
    session table [activeGames], the membership index [playerSockets], the
    id generator, create / join / remove / idle sweep / listing) and the
    Socket.IO event handlers registered for every connection.

    Conventions of the embedding.
    - A JavaScript [Map] with string keys is a [gmap string _].  The order of
      iteration of a JavaScript [Map] (insertion order) is not kept: the
      listing and the sweep are stated up to order.
    - [Date.now()] is an argument [now : Z] (milliseconds) of every operation
      that reads the clock; [Math.random()] is an argument of the generator.
    - A handler returns the new manager and the list of transport actions it
      performed, oldest first.
    - JavaScript truthiness is written out: [undefined], [null] and the empty
      string are falsy, every other string is truthy. *)

From Stdlib Require Import ZArith Ascii String QArith.
From stdpp Require Import gmap strings list fin_maps.

Local Open Scope Z_scope.

(** ** Strings as the source uses them *)

(** [!s] is false exactly for the non-empty strings. *)
Definition truthy (s : string) : bool := negb (String.eqb s "").

(** Truthiness of a value that is [null]/[undefined] or a string. *)
Definition truthy_opt (o : option string) : bool :=
  match o with
  | Some s => truthy s
  | None => false
  end.

(** [s.substring(from, to)] for [from <= to]: the characters at the indices
    [from .. to - 1] that exist. *)
Definition js_substring (from to : nat) (s : string) : string :=
  String.substring from (to - from) s.

Definition toUpperCase_char (c : ascii) : ascii :=
  let n := nat_of_ascii c in
  if ((97 <=? n) && (n <=? 122))%nat then ascii_of_nat (n - 32) else c.

(** [s.toUpperCase()] on the ASCII strings that occur here. *)
Fixpoint toUpperCase (s : string) : string :=
  match s with
  | EmptyString => EmptyString
  | String c s' => String (toUpperCase_char c) (toUpperCase s')
  end.

(** A digit or an upper-case letter. *)
Definition is_upper_alnum (c : ascii) : bool :=
  let n := nat_of_ascii c in
  (((48 <=? n) && (n <=? 57)) || ((65 <=? n) && (n <=? 90)))%nat.

Fixpoint string_forallb (p : ascii -> bool) (s : string) : bool :=
  match s with
  | EmptyString => true
  | String c s' => p c && string_forallb p s'
  end.

(** ** The identifier generator *)

(** The digits of base 36, as [Number.prototype.toString(36)] prints them. *)
Definition radix36 : string := "0123456789abcdefghijklmnopqrstuvwxyz".

Definition digit36 (d : nat) : ascii :=
  match String.get (d mod 36) radix36 with
  | Some c => c
  | None => "0"%char
  end.

Fixpoint digits36 (ds : list nat) : string :=
  match ds with
  | [] => EmptyString
  | d :: ds' => String (digit36 d) (digits36 ds')
  end.

(** A draw of [Math.random()] is a number of [0, 1); it is represented by the
    base-36 digits after the point that [toString(36)] prints for it.  The
    number [0] prints no digit at all. *)
Definition draw := list nat.

(** The number a draw stands for. *)
Fixpoint draw_value (ds : draw) : Q :=
  match ds with
  | [] => 0%Q
  | d :: ds' => ((inject_Z (Z.of_nat (d mod 36)) + draw_value ds') / 36)%Q
  end.

(** [Math.random().toString(36)] *)
Definition random_toString36 (ds : draw) : string :=
  match ds with
  | [] => "0"
  | _ => String.append "0." (digits36 ds)
  end.

(** [generateGameId()]:
    [Math.random().toString(36).substring(2, 8).toUpperCase()] *)
Definition generateGameId (ds : draw) : string :=
  toUpperCase (js_substring 2 8 (random_toString36 ds)).

(** ** The data model *)

(** Payloads the relay stores and forwards without reading them. *)
Inductive value : Type :=
| VNull
| VNum (n : Z)
| VStr (s : string)
| VObj (fs : fields)
with fields : Type :=
| FNil
| FCons (key : string) (v : value) (rest : fields).

Inductive Status : Type := waiting | playing.

Global Instance Status_eq_dec : EqDecision Status.
Proof. solve_decision. Defined.

(** The object built by [createGame]; [leftPaddle.y] and [rightPaddle.y] are
    the fields [leftPaddle_y] and [rightPaddle_y]. *)
Record Game : Type := {
  id : string;
  host : string;
  hostName : string;
  guest : option string;
  guestName : option string;
  ball : value;
  leftScore : value;
  rightScore : value;
  leftPaddle_y : value;
  rightPaddle_y : value;
  remainingTime : value;
  lastActivity : Z;
  status : Status
}.

(** The two maps of the [GameManager] instance. *)
Record GameManager : Type := {
  activeGames : gmap string Game;
  playerSockets : gmap string string
}.

(** [new GameManager()] *)
Definition newGameManager : GameManager :=
  {| activeGames := ∅; playerSockets := ∅ |}.

(** ** Registry operations *)

Definition createGame (ds : draw) (now : Z) (hostId hostName0 : string)
    (gm : GameManager) : Game * GameManager :=
  let gameId := generateGameId ds in
  let gameData :=
    {| id := gameId;
       host := hostId;
       hostName := hostName0;
       guest := None;
       guestName := None;
       ball := VNull;
       leftScore := VNum 0;
       rightScore := VNum 0;
       leftPaddle_y := VNum 0;
       rightPaddle_y := VNum 0;
       remainingTime := VNum 120;
       lastActivity := now;
       status := waiting |} in
  (gameData,
   {| activeGames := <[gameId := gameData]> (activeGames gm);
      playerSockets := <[hostId := gameId]> (playerSockets gm) |}).

(** In-place assignments to the fields of a game object. *)
Definition set_guest (v : option string) (g : Game) : Game :=
  {| id := id g; host := host g; hostName := hostName g; guest := v;
     guestName := guestName g; ball := ball g; leftScore := leftScore g;
     rightScore := rightScore g; leftPaddle_y := leftPaddle_y g;
     rightPaddle_y := rightPaddle_y g; remainingTime := remainingTime g;
     lastActivity := lastActivity g; status := status g |}.

Definition set_guestName (v : option string) (g : Game) : Game :=
  {| id := id g; host := host g; hostName := hostName g; guest := guest g;
     guestName := v; ball := ball g; leftScore := leftScore g;
     rightScore := rightScore g; leftPaddle_y := leftPaddle_y g;
     rightPaddle_y := rightPaddle_y g; remainingTime := remainingTime g;
     lastActivity := lastActivity g; status := status g |}.

Definition set_status (v : Status) (g : Game) : Game :=
  {| id := id g; host := host g; hostName := hostName g; guest := guest g;
     guestName := guestName g; ball := ball g; leftScore := leftScore g;
     rightScore := rightScore g; leftPaddle_y := leftPaddle_y g;
     rightPaddle_y := rightPaddle_y g; remainingTime := remainingTime g;
     lastActivity := lastActivity g; status := v |}.

Definition set_lastActivity (v : Z) (g : Game) : Game :=
  {| id := id g; host := host g; hostName := hostName g; guest := guest g;
     guestName := guestName g; ball := ball g; leftScore := leftScore g;
     rightScore := rightScore g; leftPaddle_y := leftPaddle_y g;
     rightPaddle_y := rightPaddle_y g; remainingTime := remainingTime g;
     lastActivity := v; status := status g |}.

Definition set_ball (v : value) (g : Game) : Game :=
  {| id := id g; host := host g; hostName := hostName g; guest := guest g;
     guestName := guestName g; ball := v; leftScore := leftScore g;
     rightScore := rightScore g; leftPaddle_y := leftPaddle_y g;
     rightPaddle_y := rightPaddle_y g; remainingTime := remainingTime g;
     lastActivity := lastActivity g; status := status g |}.

Definition set_leftScore (v : value) (g : Game) : Game :=
  {| id := id g; host := host g; hostName := hostName g; guest := guest g;
     guestName := guestName g; ball := ball g; leftScore := v;
     rightScore := rightScore g; leftPaddle_y := leftPaddle_y g;
     rightPaddle_y := rightPaddle_y g; remainingTime := remainingTime g;
     lastActivity := lastActivity g; status := status g |}.

Definition set_rightScore (v : value) (g : Game) : Game :=
  {| id := id g; host := host g; hostName := hostName g; guest := guest g;
     guestName := guestName g; ball := ball g; leftScore := leftScore g;
     rightScore := v; leftPaddle_y := leftPaddle_y g;
     rightPaddle_y := rightPaddle_y g; remainingTime := remainingTime g;
     lastActivity := lastActivity g; status := status g |}.

Definition set_leftPaddle_y (v : value) (g : Game) : Game :=
  {| id := id g; host := host g; hostName := hostName g; guest := guest g;
     guestName := guestName g; ball := ball g; leftScore := leftScore g;
     rightScore := rightScore g; leftPaddle_y := v;
     rightPaddle_y := rightPaddle_y g; remainingTime := remainingTime g;
     lastActivity := lastActivity g; status := status g |}.

Definition set_rightPaddle_y (v : value) (g : Game) : Game :=
  {| id := id g; host := host g; hostName := hostName g; guest := guest g;
     guestName := guestName g; ball := ball g; leftScore := leftScore g;
     rightScore := rightScore g; leftPaddle_y := leftPaddle_y g;
     rightPaddle_y := v; remainingTime := remainingTime g;
     lastActivity := lastActivity g; status := status g |}.

Definition set_remainingTime (v : value) (g : Game) : Game :=
  {| id := id g; host := host g; hostName := hostName g; guest := guest g;
     guestName := guestName g; ball := ball g; leftScore := leftScore g;
     rightScore := rightScore g; leftPaddle_y := leftPaddle_y g;
     rightPaddle_y := rightPaddle_y g; remainingTime := v;
     lastActivity := lastActivity g; status := status g |}.

(** A game object lives in [activeGames] under the key it was fetched with;
    assigning to its fields changes the table's entry under that key. *)
Definition storeGame (gameId : string) (game : Game) (gm : GameManager)
    : GameManager :=
  {| activeGames := <[gameId := game]> (activeGames gm);
     playerSockets := playerSockets gm |}.

(** [joinGame] returns [null] ([None]) or the joined game. *)
Definition joinGame (now : Z) (gameId guestId guestName0 : string)
    (gm : GameManager) : option Game * GameManager :=
  match activeGames gm !! gameId with
  | None => (None, gm)
  | Some game =>
      if truthy_opt (guest game) then (None, gm)
      else
        let game' :=
          set_lastActivity now
            (set_status playing
               (set_guestName (Some guestName0)
                  (set_guest (Some guestId) game))) in
        (Some game',
         {| activeGames := <[gameId := game']> (activeGames gm);
            playerSockets := <[guestId := gameId]> (playerSockets gm) |})
  end.

Definition removeGame (gameId : string) (gm : GameManager) : GameManager :=
  match activeGames gm !! gameId with
  | None => gm
  | Some game =>
      let ps1 := delete (host game) (playerSockets gm) in
      let ps2 :=
        match guest game with
        | Some g => if truthy g then delete g ps1 else ps1
        | None => ps1
        end in
      {| activeGames := delete gameId (activeGames gm);
         playerSockets := ps2 |}
  end.

(** [1000 * 60 * 5]: five minutes, in milliseconds. *)
Definition inactiveThreshold : Z := 1000 * 60 * 5.

(** The body of the loop of [cleanupInactiveGames] for one entry. *)
Definition cleanupEntry (now : Z) (gm : GameManager) (entry : string * Game)
    : GameManager :=
  if now - lastActivity entry.2 >? inactiveThreshold
  then removeGame entry.1 gm
  else gm.

(** [cleanupInactiveGames]: the loop visits the entries of [activeGames];
    [removeGame] only deletes, so an entry that is visited is still the one
    the loop started with. *)
Definition cleanupInactiveGames (now : Z) (gm : GameManager) : GameManager :=
  foldl (cleanupEntry now) gm (map_to_list (activeGames gm)).

(** One element of the array [getAvailableGames] returns. *)
Module Listing.
Record t : Type := { id : string; name : string; createdAt : Z }.
End Listing.

(** The object [getAvailableGames] builds for a game. *)
Definition availableGame (game : Game) : Listing.t :=
  {| Listing.id := id game;
     Listing.name := String.append (hostName game) "'s Game";
     Listing.createdAt := lastActivity game |}.

Definition getAvailableGames (gm : GameManager) : list Listing.t :=
  availableGame
  <$> filter (fun game => status game = waiting)
        ((map_to_list (activeGames gm)).*2).

(** ** The event router *)

(** The answers passed to a handler's [callback]. *)
Inductive reply : Type :=
| ReplyCreated (gameId : string)
    (* { status: 'success', gameId } *)
| ReplySuccess
    (* { status: 'success' } *)
| ReplyError (message : string)
    (* { status: 'error', message } *)
| ReplyGameList (games : list Listing.t).

(** What a handler does on the transport. *)
Inductive action : Type :=
| Join (room : string)
    (* socket.join(room) *)
| Emit (target : option string) (event : string) (args : list value)
    (* io.to(target).emit(event, ...args) *)
| Callback (r : reply).

(** The events a connection sends. *)
Inductive event : Type :=
| Pong
| CreateGame (playerName : string) (ds : draw)
| JoinGame (gameId playerName : string)
| CancelGame (gameId : string)
| PaddleMove (y : value)
| BallUpdate (b : value)
| ScoreUpdate (l r : value)
| TimerUpdate (t : value)
| GameEnd
| RequestGameList
| Disconnect.

(** [const gameId = gameManager.playerSockets.get(socket.id);
     if (!gameId) return;] *)
Definition currentGameId (socketId : string) (gm : GameManager)
    : option string :=
  match playerSockets gm !! socketId with
  | Some gameId => if truthy gameId then Some gameId else None
  | None => None
  end.

(** The first lines of the handlers that work on the sender's own game:
    the id from the membership index, then the game from the table. *)
Definition currentGame (socketId : string) (gm : GameManager)
    : option (string * Game) :=
  match currentGameId socketId gm with
  | Some gameId =>
      match activeGames gm !! gameId with
      | Some game => Some (gameId, game)
      | None => None
      end
  | None => None
  end.

Definition onPong (socketId : string) (now : Z) (gm : GameManager)
    : GameManager * list action :=
  match currentGame socketId gm with
  | Some (gameId, game) => (storeGame gameId (set_lastActivity now game) gm, [])
  | None => (gm, [])
  end.

Definition onCreateGame (socketId : string) (now : Z) (playerName : string)
    (ds : draw) (gm : GameManager) : GameManager * list action :=
  let '(game, gm') := createGame ds now socketId playerName gm in
  (gm', [Join (id game); Callback (ReplyCreated (id game))]).

Definition onJoinGame (socketId : string) (now : Z)
    (gameId playerName : string) (gm : GameManager)
    : GameManager * list action :=
  match joinGame now gameId socketId playerName gm with
  | (None, gm') => (gm', [Callback (ReplyError "Game not found or full")])
  | (Some game, gm') =>
      (gm', [Join gameId;
             Emit (Some (host game)) "gameStart"
               [VObj (FCons "rightPlayer" (VStr playerName) FNil)];
             Callback ReplySuccess])
  end.

Definition onCancelGame (socketId : string) (gameId : string)
    (gm : GameManager) : GameManager * list action :=
  match activeGames gm !! gameId with
  | Some game =>
      if String.eqb (host game) socketId then
        (removeGame gameId gm,
         if truthy_opt (guest game) then [Emit (guest game) "gameCancelled" []]
         else [])
      else (gm, [])
  | None => (gm, [])
  end.

Definition onPaddleMove (socketId : string) (now : Z) (y : value)
    (gm : GameManager) : GameManager * list action :=
  match currentGame socketId gm with
  | Some (gameId, game) =>
      let game1 := set_lastActivity now game in
      if String.eqb socketId (host game1) then
        (storeGame gameId (set_leftPaddle_y y game1) gm,
         [Emit (guest game1) "paddleMove" [VObj (FCons "y" y FNil)]])
      else if bool_decide (guest game1 = Some socketId) then
        (storeGame gameId (set_rightPaddle_y y game1) gm,
         [Emit (Some (host game1)) "paddleMove" [VObj (FCons "y" y FNil)]])
      else (storeGame gameId game1 gm, [])
  | None => (gm, [])
  end.

Definition onBallUpdate (socketId : string) (now : Z) (b : value)
    (gm : GameManager) : GameManager * list action :=
  match currentGame socketId gm with
  | Some (gameId, game) =>
      if negb (String.eqb socketId (host game)) then (gm, [])
      else
        (storeGame gameId (set_lastActivity now (set_ball b game)) gm,
         [Emit (guest game) "ballUpdate" [VObj (FCons "ball" b FNil)]])
  | None => (gm, [])
  end.

Definition onScoreUpdate (socketId : string) (now : Z) (l r : value)
    (gm : GameManager) : GameManager * list action :=
  match currentGame socketId gm with
  | Some (gameId, game) =>
      if negb (String.eqb socketId (host game)) then (gm, [])
      else
        (storeGame gameId
           (set_lastActivity now (set_rightScore r (set_leftScore l game))) gm,
         [Emit (guest game) "scoreUpdate"
            [VObj (FCons "leftScore" l (FCons "rightScore" r FNil))]])
  | None => (gm, [])
  end.

Definition onTimerUpdate (socketId : string) (now : Z) (t : value)
    (gm : GameManager) : GameManager * list action :=
  match currentGame socketId gm with
  | Some (gameId, game) =>
      if negb (String.eqb socketId (host game)) then (gm, [])
      else
        (storeGame gameId (set_lastActivity now (set_remainingTime t game)) gm,
         [Emit (guest game) "timerUpdate"
            [VObj (FCons "remainingTime" t FNil)]])
  | None => (gm, [])
  end.

Definition onGameEnd (socketId : string) (gm : GameManager)
    : GameManager * list action :=
  match currentGame socketId gm with
  | Some (gameId, game) =>
      if negb (String.eqb socketId (host game)) then (gm, [])
      else (removeGame gameId gm, [Emit (Some gameId) "gameEnd" []])
  | None => (gm, [])
  end.

Definition onRequestGameList (gm : GameManager) : GameManager * list action :=
  (gm, [Callback (ReplyGameList (getAvailableGames gm))]).

(** [gameManager.playerSockets.delete(socket.id)], the last line of the
    disconnect handler. *)
Definition forgetSocket (socketId : string) (gm : GameManager) : GameManager :=
  {| activeGames := activeGames gm;
     playerSockets := delete socketId (playerSockets gm) |}.

Definition onDisconnect (socketId : string) (gm : GameManager)
    : GameManager * list action :=
  match currentGame socketId gm with
  | Some (gameId, game) =>
      if String.eqb socketId (host game) then
        (forgetSocket socketId (removeGame gameId gm),
         if truthy_opt (guest game)
         then [Emit (guest game) "hostDisconnected" []]
         else [])
      else if bool_decide (guest game = Some socketId) then
        (forgetSocket socketId
           (storeGame gameId
              (set_status waiting (set_guestName None (set_guest None game)))
              gm),
         [Emit (Some (host game)) "guestDisconnected" []])
      else (forgetSocket socketId gm, [])
  | None => (gm, [])
  end.

(** The handler the connection [socketId] runs for an event at time [now]. *)
Definition on (socketId : string) (now : Z) (ev : event) (gm : GameManager)
    : GameManager * list action :=
  match ev with
  | Pong => onPong socketId now gm
  | CreateGame playerName ds => onCreateGame socketId now playerName ds gm
  | JoinGame gameId playerName => onJoinGame socketId now gameId playerName gm
  | CancelGame gameId => onCancelGame socketId gameId gm
  | PaddleMove y => onPaddleMove socketId now y gm
  | BallUpdate b => onBallUpdate socketId now b gm
  | ScoreUpdate l r => onScoreUpdate socketId now l r gm
  | TimerUpdate t => onTimerUpdate socketId now t gm
  | GameEnd => onGameEnd socketId gm
  | RequestGameList => onRequestGameList gm
  | Disconnect => onDisconnect socketId gm
  end.

(** The test of the loop of [cleanupInactiveGames]. *)
Definition inactive (now : Z) (game : Game) : bool :=
  now - lastActivity game >? inactiveThreshold.

(** The updates only the host may send. *)
Definition hostUpdate (ev : event) : bool :=
  match ev with
  | BallUpdate _ | ScoreUpdate _ _ | TimerUpdate _ => true
  | _ => false
  end.

(** [socketId] is the host of the game its membership entry names. *)
Definition registeredHost (socketId : string) (gm : GameManager) : Prop :=
  exists gameId game,
    playerSockets gm !! socketId = Some gameId /\
    activeGames gm !! gameId = Some game /\
    host game = socketId.

(** ** The stand-alone server *)

(** The second server file of the repository keeps the two maps in module
    variables and has no [GameManager]; its game objects carry [startTime]
    instead of [lastActivity], a joined game has the status ['starting'], and
    its [removeGame] deletes from [activeGames] only.  Its game list is
    embedded here. *)
Module Standalone.

Inductive Status : Type := waiting | starting.

Global Instance Status_eq_dec : EqDecision Status.
Proof. solve_decision. Defined.

Record Game : Type := {
  id : string;
  host : string;
  hostName : string;
  guest : option string;
  guestName : option string;
  ball : value;
  leftScore : value;
  rightScore : value;
  leftPaddle_y : value;
  rightPaddle_y : value;
  remainingTime : value;
  startTime : option Z;
  status : Status
}.

(** One element of the array sent with ['gameList']. *)
Module Listing.
Record t : Type := { id : string; name : string }.
End Listing.

(** The array the [requestGameList] handler sends back with
    [socket.emit('gameList', availableGames)]. *)
Definition requestGameList (activeGames : gmap string Game) : list Listing.t :=
  (fun game =>
     {| Listing.id := id game;
        Listing.name := String.append (hostName game) "'s Game" |})
  <$> filter (fun game => status game = waiting)
        ((map_to_list activeGames).*2).

(** [activeGames.delete(gameId)] *)
Definition removeGame (gameId : string) (activeGames : gmap string Game)
    : gmap string Game :=
  delete gameId activeGames.

End Standalone.

(** ** Sample runs *)

(** The draw that prints ["0.abcdef12345"]. *)
Definition draw_abcdef : draw :=
  [10; 11; 12; 13; 14; 15; 1; 2; 3; 4; 5]%nat.

(** Another draw, which prints ["0.abcdef98765"]. *)
Definition draw_abcdef' : draw :=
  [10; 11; 12; 13; 14; 15; 9; 8; 7; 6; 5]%nat.

(** A server on which [socketA] created a game at time 0 and [socketB]
    joined it at time 7. *)
Definition gm_created : GameManager :=
  (on "socketA" 0 (CreateGame "Alice" draw_abcdef) newGameManager).1.

Definition gm_joined : GameManager :=
  (on "socketB" 7 (JoinGame "ABCDEF" "Bob") gm_created).1.

(** A server on which [socketA] created a game at time 1000 and answered
    the heartbeat at time 16000. *)
Definition gm_ponged : GameManager :=
  (on "socketA" 16000 Pong
     (on "socketA" 1000 (CreateGame "Alice" draw_abcdef) newGameManager).1).1.

(** ** Runs of the server *)

(** One step of the server: a registry operation called directly, an event of
    a connection handled by the router, or a tick of the cleanup timer.
    Socket.IO gives every connection a non-empty id. *)
Inductive step : GameManager -> GameManager -> Prop :=
| step_createGame ds now hostId hostName0 gm :
    hostId <> ""%string ->
    step gm (createGame ds now hostId hostName0 gm).2
| step_joinGame now gameId guestId guestName0 gm :
    guestId <> ""%string ->
    step gm (joinGame now gameId guestId guestName0 gm).2
| step_removeGame gameId gm :
    step gm (removeGame gameId gm)
| step_on socketId now ev gm :
    socketId <> ""%string ->
    step gm (on socketId now ev gm).1
| step_cleanup now gm :
    step gm (cleanupInactiveGames now gm).

(** The managers a server started with [new GameManager()] can be in. *)
Inductive reachable : GameManager -> Prop :=
| reachable_new : reachable newGameManager
| reachable_step gm gm' : reachable gm -> step gm gm' -> reachable gm'.

(** What the table guarantees about a game stored under the key [gameId]:
    the host is a connection id, the guest slot is empty or holds one
    connection id, the status tells which, and the key is the game's id. *)
Record game_ok (gameId : string) (game : Game) : Prop := {
  ok_host : host game <> ""%string;
  ok_guest : guest game <> Some ""%string;
  ok_status : status game = playing <-> guest game <> None;
  ok_id : id game = gameId
}.

Definition table_ok (gm : GameManager) : Prop :=
  forall gameId game, activeGames gm !! gameId = Some game -> game_ok gameId game.

(** The connections that take part in a game. *)
Definition hosts (game : Game) : list string := [host game].

Definition guests (game : Game) : list string :=
  match guest game with
  | Some g => [g]
  | None => []
  end.

(** ** Vocabulary of the further properties *)

(** The events whose handler starts from the sender's membership entry. *)
Definition membershipEvent (ev : event) : bool :=
  match ev with
  | Pong | PaddleMove _ | BallUpdate _ | ScoreUpdate _ _ | TimerUpdate _
  | GameEnd | Disconnect => true
  | CreateGame _ _ | JoinGame _ _ | CancelGame _ | RequestGameList => false
  end.

Definition isCreateGame (ev : event) : bool :=
  match ev with
  | CreateGame _ _ => true
  | _ => false
  end.

(** The events that only report activity or the state of play. *)
Definition relayEvent (ev : event) : bool :=
  match ev with
  | Pong | PaddleMove _ | BallUpdate _ | ScoreUpdate _ _ | TimerUpdate _ => true
  | _ => false
  end.

(** Who owns the game: the fields [createGame] fills from its arguments. *)
Definition same_identity (g g' : Game) : Prop :=
  id g' = id g /\ host g' = host g /\ hostName g' = hostName g.

(** Who sits in the guest seat, and the status that goes with it. *)
Definition same_seats (g g' : Game) : Prop :=
  guest g' = guest g /\ guestName g' = guestName g /\ status g' = status g.

(** The state of play the host reports. *)
Definition same_play (g g' : Game) : Prop :=
  ball g' = ball g /\ leftScore g' = leftScore g /\
  rightScore g' = rightScore g /\ leftPaddle_y g' = leftPaddle_y g /\
  rightPaddle_y g' = rightPaddle_y g /\ remainingTime g' = remainingTime g.

(** [c] takes part in [game], as host or as guest. *)
Definition participant (c : string) (game : Game) : Prop :=
  c = host game \/ guest game = Some c.

(** What a relayed event of [socketId] at time [now] may change between
    [gm] and [gm']: only the sender's current game, and in it neither the
    owner nor the seats; a game that changed carries the time [now]. *)
Definition relay_frame (socketId : string) (now : Z) (gm gm' : GameManager)
    : Prop :=
  playerSockets gm' = playerSockets gm /\
  (forall k, activeGames gm' !! k = None <-> activeGames gm !! k = None) /\
  (forall k g g',
     activeGames gm !! k = Some g -> activeGames gm' !! k = Some g' ->
     same_identity g g' /\ same_seats g g' /\
     (g' = g \/
      (currentGame socketId gm = Some (k, g) /\ lastActivity g' = now))).

(** Every game of [gm'] was a game of [gm] under the same key, with the
    same id, host and host name. *)
Definition no_new_game (gm gm' : GameManager) : Prop :=
  forall k g',
    activeGames gm' !! k = Some g' ->
    exists g, activeGames gm !! k = Some g /\ same_identity g g'.

(** ** The router of the stand-alone server *)

(** The handlers of the second server file.  They keep no [lastActivity],
    answer the sender with [socket.emit] instead of a callback, and go
    through the [removeGame] that deletes from [activeGames] only.  The
    [console.log] lines are left out. *)
Module StandaloneServer.

Import Standalone.

Record Server : Type := {
  activeGames : gmap string Game;
  playerSockets : gmap string string
}.

Definition newServer : Server := {| activeGames := ∅; playerSockets := ∅ |}.

Inductive action : Type :=
| Join (room : string)
    (* socket.join(room) *)
| EmitTo (target : option string) (event : string) (args : list value)
    (* io.to(target).emit(event, ...args) *)
| EmitBack (event : string) (args : list value)
    (* socket.emit(event, ...args) *)
| EmitGameList (games : list Listing.t).
    (* socket.emit('gameList', availableGames) *)

Definition set_guest (v : option string) (g : Game) : Game :=
  {| id := id g; host := host g; hostName := hostName g; guest := v;
     guestName := guestName g; ball := ball g; leftScore := leftScore g;
     rightScore := rightScore g; leftPaddle_y := leftPaddle_y g;
     rightPaddle_y := rightPaddle_y g; remainingTime := remainingTime g;
     startTime := startTime g; status := status g |}.

Definition set_guestName (v : option string) (g : Game) : Game :=
  {| id := id g; host := host g; hostName := hostName g; guest := guest g;
     guestName := v; ball := ball g; leftScore := leftScore g;
     rightScore := rightScore g; leftPaddle_y := leftPaddle_y g;
     rightPaddle_y := rightPaddle_y g; remainingTime := remainingTime g;
     startTime := startTime g; status := status g |}.

Definition set_status (v : Status) (g : Game) : Game :=
  {| id := id g; host := host g; hostName := hostName g; guest := guest g;
     guestName := guestName g; ball := ball g; leftScore := leftScore g;
     rightScore := rightScore g; leftPaddle_y := leftPaddle_y g;
     rightPaddle_y := rightPaddle_y g; remainingTime := remainingTime g;
     startTime := startTime g; status := v |}.

Definition set_ball (v : value) (g : Game) : Game :=
  {| id := id g; host := host g; hostName := hostName g; guest := guest g;
     guestName := guestName g; ball := v; leftScore := leftScore g;
     rightScore := rightScore g; leftPaddle_y := leftPaddle_y g;
     rightPaddle_y := rightPaddle_y g; remainingTime := remainingTime g;
     startTime := startTime g; status := status g |}.

Definition set_leftScore (v : value) (g : Game) : Game :=
  {| id := id g; host := host g; hostName := hostName g; guest := guest g;
     guestName := guestName g; ball := ball g; leftScore := v;
     rightScore := rightScore g; leftPaddle_y := leftPaddle_y g;
     rightPaddle_y := rightPaddle_y g; remainingTime := remainingTime g;
     startTime := startTime g; status := status g |}.

Definition set_rightScore (v : value) (g : Game) : Game :=
  {| id := id g; host := host g; hostName := hostName g; guest := guest g;
     guestName := guestName g; ball := ball g; leftScore := leftScore g;
     rightScore := v; leftPaddle_y := leftPaddle_y g;
     rightPaddle_y := rightPaddle_y g; remainingTime := remainingTime g;
     startTime := startTime g; status := status g |}.

Definition set_leftPaddle_y (v : value) (g : Game) : Game :=
  {| id := id g; host := host g; hostName := hostName g; guest := guest g;
     guestName := guestName g; ball := ball g; leftScore := leftScore g;
     rightScore := rightScore g; leftPaddle_y := v;
     rightPaddle_y := rightPaddle_y g; remainingTime := remainingTime g;
     startTime := startTime g; status := status g |}.

Definition set_rightPaddle_y (v : value) (g : Game) : Game :=
  {| id := id g; host := host g; hostName := hostName g; guest := guest g;
     guestName := guestName g; ball := ball g; leftScore := leftScore g;
     rightScore := rightScore g; leftPaddle_y := leftPaddle_y g;
     rightPaddle_y := v; remainingTime := remainingTime g;
     startTime := startTime g; status := status g |}.

Definition set_remainingTime (v : value) (g : Game) : Game :=
  {| id := id g; host := host g; hostName := hostName g; guest := guest g;
     guestName := guestName g; ball := ball g; leftScore := leftScore g;
     rightScore := rightScore g; leftPaddle_y := leftPaddle_y g;
     rightPaddle_y := rightPaddle_y g; remainingTime := v;
     startTime := startTime g; status := status g |}.

(** [const GAME_TIME = 120] *)
Definition GAME_TIME : Z := 120.

(** Assigning to the fields of the game fetched under [gameId]. *)
Definition storeGame (gameId : string) (game : Game) (sv : Server) : Server :=
  {| activeGames := <[gameId := game]> (activeGames sv);
     playerSockets := playerSockets sv |}.

(** The helper [removeGame], on the server's state. *)
Definition dropGame (gameId : string) (sv : Server) : Server :=
  {| activeGames := removeGame gameId (activeGames sv);
     playerSockets := playerSockets sv |}.

(** [playerSockets.delete(socket.id)] *)
Definition forgetSocket (socketId : string) (sv : Server) : Server :=
  {| activeGames := activeGames sv;
     playerSockets := delete socketId (playerSockets sv) |}.

(** [const gameId = playerSockets.get(socket.id); if (!gameId) return;
     const game = activeGames.get(gameId); if (!game) return;] *)
Definition currentGame (socketId : string) (sv : Server)
    : option (string * Game) :=
  match playerSockets sv !! socketId with
  | Some gameId =>
      if truthy gameId then
        match activeGames sv !! gameId with
        | Some game => Some (gameId, game)
        | None => None
        end
      else None
  | None => None
  end.

Definition onCreateGame (socketId playerName : string) (ds : draw)
    (sv : Server) : Server * list action :=
  let gameId := generateGameId ds in
  let gameData :=
    {| id := gameId;
       host := socketId;
       hostName := playerName;
       guest := None;
       guestName := None;
       ball := VNull;
       leftScore := VNum 0;
       rightScore := VNum 0;
       leftPaddle_y := VNum 0;
       rightPaddle_y := VNum 0;
       remainingTime := VNum GAME_TIME;
       startTime := None;
       status := waiting |} in
  ({| activeGames := <[gameId := gameData]> (activeGames sv);
      playerSockets := <[socketId := gameId]> (playerSockets sv) |},
   [Join gameId; EmitBack "gameCreated" [VStr gameId]]).

Definition onJoinGame (socketId gameId playerName : string) (sv : Server)
    : Server * list action :=
  match activeGames sv !! gameId with
  | None => (sv, [EmitBack "gameNotFound" []])
  | Some game =>
      if truthy_opt (guest game) then (sv, [EmitBack "gameFull" []])
      else
        let game' :=
          set_status starting
            (set_guestName (Some playerName)
               (set_guest (Some socketId) game)) in
        ({| activeGames := <[gameId := game']> (activeGames sv);
            playerSockets := <[socketId := gameId]> (playerSockets sv) |},
         [Join gameId;
          EmitTo (Some (host game')) "gameStart"
            [VObj (FCons "rightPlayer" (VStr playerName) FNil)]])
  end.

Definition onCancelGame (socketId gameId : string) (sv : Server)
    : Server * list action :=
  match activeGames sv !! gameId with
  | Some game =>
      if String.eqb (host game) socketId then
        (dropGame gameId sv,
         if truthy_opt (guest game)
         then [EmitTo (guest game) "gameCancelled" []]
         else [])
      else (sv, [])
  | None => (sv, [])
  end.

Definition onPaddleMove (socketId : string) (y : value) (sv : Server)
    : Server * list action :=
  match currentGame socketId sv with
  | Some (gameId, game) =>
      if String.eqb socketId (host game) then
        (storeGame gameId (set_leftPaddle_y y game) sv,
         [EmitTo (guest game) "paddleMove" [VObj (FCons "y" y FNil)]])
      else if bool_decide (guest game = Some socketId) then
        (storeGame gameId (set_rightPaddle_y y game) sv,
         [EmitTo (Some (host game)) "paddleMove" [VObj (FCons "y" y FNil)]])
      else (sv, [])
  | None => (sv, [])
  end.

Definition onBallUpdate (socketId : string) (b : value) (sv : Server)
    : Server * list action :=
  match currentGame socketId sv with
  | Some (gameId, game) =>
      if negb (String.eqb socketId (host game)) then (sv, [])
      else
        (storeGame gameId (set_ball b game) sv,
         [EmitTo (guest game) "ballUpdate" [VObj (FCons "ball" b FNil)]])
  | None => (sv, [])
  end.

Definition onScoreUpdate (socketId : string) (l r : value) (sv : Server)
    : Server * list action :=
  match currentGame socketId sv with
  | Some (gameId, game) =>
      if negb (String.eqb socketId (host game)) then (sv, [])
      else
        (storeGame gameId (set_rightScore r (set_leftScore l game)) sv,
         [EmitTo (guest game) "scoreUpdate"
            [VObj (FCons "leftScore" l (FCons "rightScore" r FNil))]])
  | None => (sv, [])
  end.

Definition onTimerUpdate (socketId : string) (t : value) (sv : Server)
    : Server * list action :=
  match currentGame socketId sv with
  | Some (gameId, game) =>
      if negb (String.eqb socketId (host game)) then (sv, [])
      else
        (storeGame gameId (set_remainingTime t game) sv,
         [EmitTo (guest game) "timerUpdate"
            [VObj (FCons "remainingTime" t FNil)]])
  | None => (sv, [])
  end.

Definition onGameEnd (socketId : string) (sv : Server)
    : Server * list action :=
  match currentGame socketId sv with
  | Some (gameId, game) =>
      if negb (String.eqb socketId (host game)) then (sv, [])
      else (dropGame gameId sv, [EmitTo (Some gameId) "gameEnd" []])
  | None => (sv, [])
  end.

Definition onRequestGameList (sv : Server) : Server * list action :=
  (sv, [EmitGameList (requestGameList (activeGames sv))]).

Definition onDisconnect (socketId : string) (sv : Server)
    : Server * list action :=
  match currentGame socketId sv with
  | Some (gameId, game) =>
      if String.eqb socketId (host game) then
        (forgetSocket socketId (dropGame gameId sv),
         if truthy_opt (guest game)
         then [EmitTo (guest game) "hostDisconnected" []]
         else [])
      else if bool_decide (guest game = Some socketId) then
        (forgetSocket socketId
           (storeGame gameId
              (set_status waiting (set_guestName None (set_guest None game)))
              sv),
         [EmitTo (Some (host game)) "guestDisconnected" []])
      else (forgetSocket socketId sv, [])
  | None => (sv, [])
  end.

(** The handler of the connection [socketId] for an event; this server
    registers none for [pong]. *)
Definition on (socketId : string) (ev : event) (sv : Server)
    : Server * list action :=
  match ev with
  | Pong => (sv, [])
  | CreateGame playerName ds => onCreateGame socketId playerName ds sv
  | JoinGame gameId playerName => onJoinGame socketId gameId playerName sv
  | CancelGame gameId => onCancelGame socketId gameId sv
  | PaddleMove y => onPaddleMove socketId y sv
  | BallUpdate b => onBallUpdate socketId b sv
  | ScoreUpdate l r => onScoreUpdate socketId l r sv
  | TimerUpdate t => onTimerUpdate socketId t sv
  | GameEnd => onGameEnd socketId sv
  | RequestGameList => onRequestGameList sv
  | Disconnect => onDisconnect socketId sv
  end.

End StandaloneServer.

(** * Properties *)

(** ** The identifier generator *)

Section Generator.

Lemma toUpperCase_length s : String.length (toUpperCase s) = String.length s.
Proof. induction s as [|c s IH]; simpl; congruence. Qed.

Lemma substring_0_length m s :
  (String.length (String.substring 0 m s) <= m)%nat.
Proof.
  revert s; induction m as [|m IH]; intros [|c s]; simpl; try lia.
  specialize (IH s). lia.
Qed.

Lemma substring_0_digits36_length m ds :
  (m <= length ds)%nat ->
  String.length (String.substring 0 m (digits36 ds)) = m.
Proof.
  revert ds; induction m as [|m IH]; intros [|d ds] H; simpl in *;
    try lia; try reflexivity.
  rewrite IH; lia.
Qed.

Lemma digit36_upper d : is_upper_alnum (toUpperCase_char (digit36 d)) = true.
Proof.
  unfold digit36.
  assert (H : (d mod 36 < 36)%nat) by (apply Nat.mod_upper_bound; lia).
  revert H. generalize (d mod 36)%nat as n. intros n H.
  do 36 (destruct n as [|n]; [reflexivity|]). lia.
Qed.

Lemma substring_0_digits36_upper m ds :
  string_forallb is_upper_alnum
    (toUpperCase (String.substring 0 m (digits36 ds))) = true.
Proof.
  revert ds; induction m as [|m IH]; intros [|d ds]; simpl; try reflexivity.
  rewrite digit36_upper, IH. reflexivity.
Qed.

Lemma generateGameId_cons d ds :
  generateGameId (d :: ds) =
  toUpperCase (String.substring 0 6 (digits36 (d :: ds))).
Proof. reflexivity. Qed.

(** Whatever the draw, the id has at most six characters, all of them
    digits or upper-case letters. *)
Lemma generateGameId_shape ds :
  (String.length (generateGameId ds) <= 6)%nat /\
  string_forallb is_upper_alnum (generateGameId ds) = true.
Proof.
  destruct ds as [|d ds].
  - split; [simpl; lia | reflexivity].
  - rewrite generateGameId_cons. split.
    + rewrite toUpperCase_length. apply substring_0_length.
    + apply substring_0_digits36_upper.
Qed.

(** A draw that prints at least six digits gives a six-character id. *)
Lemma generateGameId_six ds :
  (6 <= length ds)%nat -> String.length (generateGameId ds) = 6%nat.
Proof.
  intros H. destruct ds as [|d ds]; [simpl in H; lia|].
  rewrite generateGameId_cons, toUpperCase_length.
  apply substring_0_digits36_length. exact H.
Qed.

End Generator.

(** ** createGame *)

Section CreateGame.

Lemma createGame_id ds now hostId hostName0 gm :
  id (createGame ds now hostId hostName0 gm).1 = generateGameId ds.
Proof. reflexivity. Qed.

Lemma createGame_lookup ds now hostId hostName0 gm :
  activeGames (createGame ds now hostId hostName0 gm).2
    !! generateGameId ds
  = Some (createGame ds now hostId hostName0 gm).1.
Proof. simpl. apply lookup_insert_eq. Qed.

Lemma createGame_lookup_ne ds now hostId hostName0 gm gameId :
  gameId <> generateGameId ds ->
  activeGames (createGame ds now hostId hostName0 gm).2 !! gameId
  = activeGames gm !! gameId.
Proof. intros H. simpl. apply lookup_insert_ne. congruence. Qed.

Lemma createGame_playerSockets ds now hostId hostName0 gm :
  playerSockets (createGame ds now hostId hostName0 gm).2 !! hostId
  = Some (generateGameId ds).
Proof. simpl. apply lookup_insert_eq. Qed.

End CreateGame.

(** The draw [0] prints ["0"]: the id is the empty string, which the
    router's own test [if (!gameId) return] takes for no game at all, so the
    host of that game is treated as a connection without a game. *)
Lemma generateGameId_zero_is_empty :
  generateGameId [] = ""%string /\
  forall now hostName0 gm,
    currentGame "socketA" (createGame [] now "socketA" hostName0 gm).2 = None.
Proof.
  split; [reflexivity|]. intros now hostName0 gm.
  unfold currentGame, currentGameId.
  rewrite createGame_playerSockets. reflexivity.
Qed.

(** C8 (the code falls short of the claim).  The draw [0.5] is printed
    ["0.i"] in base 36, so [generateGameId] returns the one-character id
    ["I"], and [createGame] hands out that id: not every draw yields a
    six-character token. *)
Theorem C8_generateGameId_half_is_one_character :
  (draw_value [18%nat] == 1 # 2)%Q /\
  random_toString36 [18%nat] = "0.i"%string /\
  generateGameId [18%nat] = "I"%string /\
  (on "socketA" 0 (CreateGame "Alice" [18%nat]) newGameManager).2
  = [Join "I"; Callback (ReplyCreated "I")] /\
  String.length
    (id (createGame [18%nat] 0 "socketA" "Alice" newGameManager).1) <> 6%nat.
Proof.
  split; [reflexivity|].
  split; [reflexivity|].
  split; [reflexivity|].
  split; [reflexivity|].
  simpl. lia.
Qed.

(** C3, as stated, fails: there is no collision check.  Two draws with the
    same first six digits give the same id; the second [createGame] stores
    its game under that id and the game of the first is gone. *)
Lemma C3_createGame_displaces_on_collision :
  let gm := (createGame draw_abcdef 0 "socketA" "Alice" newGameManager).2 in
  let gm' := (createGame draw_abcdef' 5 "socketB" "Bob" gm).2 in
  draw_abcdef <> draw_abcdef' /\
  host <$> activeGames gm !! "ABCDEF"%string = Some "socketA"%string /\
  host <$> activeGames gm' !! "ABCDEF"%string = Some "socketB"%string /\
  size (activeGames gm') = 1%nat /\
  ~ (forall gameId game,
       activeGames gm !! gameId = Some game ->
       activeGames gm' !! gameId = Some game).
Proof.
  cbn zeta.
  split; [discriminate|].
  split; [vm_compute; reflexivity|].
  split; [vm_compute; reflexivity|].
  split; [vm_compute; reflexivity|].
  intros H.
  specialize (H "ABCDEF"%string
                (createGame draw_abcdef 0 "socketA" "Alice" newGameManager).1).
  vm_compute in H. specialize (H eq_refl). discriminate H.
Qed.

(** C3 (amended).  [createGame] stores the new waiting game under the id the
    generator returned, whether or not that id was in the table, and leaves
    the entry of every other id as it was: a game that was stored under the
    generated id is replaced by the new one. *)
Theorem C3_createGame_inserts_unchecked ds now hostId hostName0 gm :
  let game := (createGame ds now hostId hostName0 gm).1 in
  let gm' := (createGame ds now hostId hostName0 gm).2 in
  id game = generateGameId ds /\
  host game = hostId /\ guest game = None /\ status game = waiting /\
  activeGames gm' !! generateGameId ds = Some game /\
  playerSockets gm' !! hostId = Some (generateGameId ds) /\
  (forall gameId,
     gameId <> generateGameId ds ->
     activeGames gm' !! gameId = activeGames gm !! gameId).
Proof.
  cbn zeta. repeat split.
  - apply createGame_lookup.
  - apply createGame_playerSockets.
  - intros gameId H. apply createGame_lookup_ne, H.
Qed.

(** ** Lookups the handlers start with *)

Section Lookups.

Lemma truthy_true s : truthy s = true <-> s <> ""%string.
Proof.
  unfold truthy. rewrite negb_true_iff. apply String.eqb_neq.
Qed.

Lemma truthy_false s : truthy s = false <-> s = ""%string.
Proof.
  unfold truthy. rewrite negb_false_iff. apply String.eqb_eq.
Qed.

Lemma currentGameId_Some socketId gm gameId :
  currentGameId socketId gm = Some gameId <->
  playerSockets gm !! socketId = Some gameId /\ gameId <> ""%string.
Proof.
  unfold currentGameId.
  destruct (playerSockets gm !! socketId) as [g|].
  - destruct (truthy g) eqn:Ht.
    + apply truthy_true in Ht. split.
      * intros Heq. injection Heq as <-. auto.
      * intros [Heq _]. exact Heq.
    + apply truthy_false in Ht. split.
      * discriminate.
      * intros [Heq Hne]. injection Heq as <-. contradiction.
  - split; [discriminate | intros [Heq _]; discriminate].
Qed.

Lemma currentGame_Some socketId gm gameId game :
  currentGame socketId gm = Some (gameId, game) <->
  playerSockets gm !! socketId = Some gameId /\ gameId <> ""%string /\
  activeGames gm !! gameId = Some game.
Proof.
  unfold currentGame.
  destruct (currentGameId socketId gm) as [g|] eqn:Hc.
  - apply currentGameId_Some in Hc as [Hp Hne].
    destruct (activeGames gm !! g) as [game'|] eqn:Hg; split.
    + intros [= <- <-]. auto.
    + intros (Hp' & _ & Hg'). rewrite Hp in Hp'. injection Hp' as <-.
      rewrite Hg in Hg'. congruence.
    + discriminate.
    + intros (Hp' & _ & Hg'). rewrite Hp in Hp'. injection Hp' as <-.
      rewrite Hg in Hg'. discriminate.
  - split; [discriminate|].
    intros (Hp & Hne & _).
    assert (currentGameId socketId gm = Some gameId) as Hc'
      by (apply currentGameId_Some; auto).
    congruence.
Qed.

End Lookups.

(** ** The table invariant *)

Section Invariant.

Ltac game_ok_fields H :=
  destruct H as [? ? ? ?]; constructor; simpl; auto.

Lemma table_ok_new : table_ok newGameManager.
Proof. intros gameId game H. simpl in H. rewrite lookup_empty in H. discriminate. Qed.

Lemma table_ok_storeGame gameId game gm :
  table_ok gm -> game_ok gameId game -> table_ok (storeGame gameId game gm).
Proof.
  intros Hok Hg k g. simpl. rewrite lookup_insert.
  case_decide as Hk; [|apply Hok].
  intros [= <-]. subst k. exact Hg.
Qed.

Lemma table_ok_forgetSocket socketId gm :
  table_ok gm -> table_ok (forgetSocket socketId gm).
Proof. intros Hok k g. simpl. apply Hok. Qed.

Lemma activeGames_removeGame gameId gm :
  activeGames (removeGame gameId gm) = delete gameId (activeGames gm).
Proof.
  unfold removeGame.
  destruct (activeGames gm !! gameId) as [game|] eqn:Hg; simpl.
  - reflexivity.
  - symmetry. apply delete_id. exact Hg.
Qed.

Lemma table_ok_removeGame gameId gm :
  table_ok gm -> table_ok (removeGame gameId gm).
Proof.
  intros Hok k g. rewrite activeGames_removeGame.
  rewrite lookup_delete. case_decide; [discriminate|apply Hok].
Qed.

Lemma table_ok_createGame ds now hostId hostName0 gm :
  hostId <> ""%string ->
  table_ok gm -> table_ok (createGame ds now hostId hostName0 gm).2.
Proof.
  intros Hne Hok k g. simpl. rewrite lookup_insert.
  case_decide as Hk; [|apply Hok].
  intros [= <-]. subst k. constructor; simpl; auto.
  split; [discriminate | congruence].
Qed.

Lemma table_ok_joinGame now gameId guestId guestName0 gm :
  guestId <> ""%string ->
  table_ok gm -> table_ok (joinGame now gameId guestId guestName0 gm).2.
Proof.
  intros Hne Hok. unfold joinGame.
  destruct (activeGames gm !! gameId) as [game|] eqn:Hg; [|exact Hok].
  destruct (truthy_opt (guest game)); [exact Hok|].
  intros k g. simpl. rewrite lookup_insert.
  case_decide as Hk; [|apply Hok].
  intros [= <-]. subst k. apply Hok in Hg.
  game_ok_fields Hg.
  - congruence.
  - split; [discriminate | reflexivity].
Qed.

Lemma table_ok_foldl_cleanup now entries gm :
  table_ok gm -> table_ok (foldl (cleanupEntry now) gm entries).
Proof.
  revert gm. induction entries as [|e entries IH]; intros gm Hok; simpl.
  - exact Hok.
  - apply IH. unfold cleanupEntry.
    destruct (now - lastActivity e.2 >? inactiveThreshold);
      [apply table_ok_removeGame|]; exact Hok.
Qed.

Lemma table_ok_cleanupInactiveGames now gm :
  table_ok gm -> table_ok (cleanupInactiveGames now gm).
Proof. apply table_ok_foldl_cleanup. Qed.

Lemma table_ok_on socketId now ev gm :
  socketId <> ""%string -> table_ok gm -> table_ok (on socketId now ev gm).1.
Proof.
  intros Hne Hok.
  destruct ev; simpl;
    unfold onPong, onCreateGame, onJoinGame, onCancelGame, onPaddleMove,
      onBallUpdate, onScoreUpdate, onTimerUpdate, onGameEnd,
      onRequestGameList, onDisconnect.
  all: try (destruct (currentGame socketId gm) as [[gid game]|] eqn:Hc;
            [apply currentGame_Some in Hc as (Hp & Hgid & Hg);
             pose proof (Hok _ _ Hg) as Hgame | exact Hok]).
  - (* pong *)
    simpl. apply table_ok_storeGame; [exact Hok|]. game_ok_fields Hgame.
  - (* createGame *)
    apply (table_ok_createGame ds now socketId playerName gm Hne Hok).
  - (* joinGame *)
    pose proof (table_ok_joinGame now gameId socketId playerName gm Hne Hok)
      as Hj.
    destruct (joinGame now gameId socketId playerName gm) as [[g|] gm'];
      exact Hj.
  - (* cancelGame *)
    destruct (activeGames gm !! gameId) as [game|]; [|exact Hok].
    destruct (String.eqb (host game) socketId); simpl;
      [apply table_ok_removeGame|]; exact Hok.
  - (* paddleMove *)
    simpl. destruct (String.eqb socketId (host game)); simpl;
      [|destruct (bool_decide (guest game = Some socketId)); simpl];
      (apply table_ok_storeGame; [exact Hok|]); game_ok_fields Hgame.
  - (* ballUpdate *)
    destruct (String.eqb socketId (host game)); simpl; [|exact Hok].
    apply table_ok_storeGame; [exact Hok|]. game_ok_fields Hgame.
  - (* scoreUpdate *)
    destruct (String.eqb socketId (host game)); simpl; [|exact Hok].
    apply table_ok_storeGame; [exact Hok|]. game_ok_fields Hgame.
  - (* timerUpdate *)
    destruct (String.eqb socketId (host game)); simpl; [|exact Hok].
    apply table_ok_storeGame; [exact Hok|]. game_ok_fields Hgame.
  - (* gameEnd *)
    destruct (String.eqb socketId (host game)); simpl;
      [apply table_ok_removeGame|]; exact Hok.
  - (* requestGameList *)
    exact Hok.
  - (* disconnect *)
    destruct (String.eqb socketId (host game)); simpl.
    + apply table_ok_forgetSocket, table_ok_removeGame, Hok.
    + destruct (bool_decide (guest game = Some socketId)); simpl.
      * apply table_ok_forgetSocket, table_ok_storeGame; [exact Hok|].
        game_ok_fields Hgame.
        split; [discriminate | congruence].
      * apply table_ok_forgetSocket, Hok.
Qed.

Lemma table_ok_step gm gm' : step gm gm' -> table_ok gm -> table_ok gm'.
Proof.
  intros Hstep Hok. destruct Hstep.
  - apply table_ok_createGame; assumption.
  - apply table_ok_joinGame; assumption.
  - apply table_ok_removeGame; assumption.
  - apply table_ok_on; assumption.
  - apply table_ok_cleanupInactiveGames; assumption.
Qed.

Lemma table_ok_reachable gm : reachable gm -> table_ok gm.
Proof.
  induction 1 as [|gm gm' _ IH Hstep].
  - apply table_ok_new.
  - eapply table_ok_step; eassumption.
Qed.

End Invariant.

Lemma reachable_gm_created : reachable gm_created.
Proof.
  eapply reachable_step; [apply reachable_new|].
  apply (step_on "socketA" 0 (CreateGame "Alice" draw_abcdef)). discriminate.
Defined.

Lemma reachable_gm_joined : reachable gm_joined.
Proof.
  eapply reachable_step; [apply reachable_gm_created|].
  apply (step_on "socketB" 7 (JoinGame "ABCDEF" "Bob")). discriminate.
Defined.

(** C1.  In every manager the server can reach, a game of the table has one
    host, which is a connection id (not [null], not empty), and at most one
    guest; the guest slot is filled exactly when the status is [playing]. *)
Theorem C1_one_host_at_most_one_guest gm gameId game :
  reachable gm ->
  activeGames gm !! gameId = Some game ->
  length (hosts game) = 1%nat /\
  truthy (host game) = true /\
  (length (guests game) <= 1)%nat /\
  guest game <> Some ""%string /\
  (status game = playing <-> guest game <> None).
Proof.
  intros Hreach Hg.
  destruct (table_ok_reachable gm Hreach gameId game Hg) as [Hh Hgu Hs _].
  split; [reflexivity|].
  split; [apply truthy_true, Hh|].
  split; [unfold guests; destruct (guest game); simpl; lia|].
  split; assumption.
Qed.

Lemma C1_one_host_at_most_one_guest_witness :
  exists game,
    activeGames gm_joined !! "ABCDEF"%string = Some game /\
    length (hosts game) = 1%nat /\
    truthy (host game) = true /\
    (length (guests game) <= 1)%nat /\
    guest game <> Some ""%string /\
    (status game = playing <-> guest game <> None).
Proof.
  eexists. split; [vm_compute; reflexivity|].
  apply (C1_one_host_at_most_one_guest gm_joined "ABCDEF").
  - exact reachable_gm_joined.
  - vm_compute. reflexivity.
Defined.

(** ** joinGame *)

Section JoinGame.

Lemma joinGame_None now gameId guestId guestName0 gm :
  (joinGame now gameId guestId guestName0 gm).1 = None <->
  activeGames gm !! gameId = None \/
  exists game,
    activeGames gm !! gameId = Some game /\ truthy_opt (guest game) = true.
Proof.
  unfold joinGame.
  destruct (activeGames gm !! gameId) as [game|] eqn:Hg.
  - destruct (truthy_opt (guest game)) eqn:Ht; simpl.
    + split; [|reflexivity]. intros _. right. eauto.
    + split; [discriminate|].
      intros [H | (game' & H & Ht')]; [discriminate|].
      injection H as <-. congruence.
  - simpl. split; [auto | reflexivity].
Qed.

Lemma joinGame_None_unchanged now gameId guestId guestName0 gm :
  (joinGame now gameId guestId guestName0 gm).1 = None ->
  (joinGame now gameId guestId guestName0 gm).2 = gm.
Proof.
  unfold joinGame.
  destruct (activeGames gm !! gameId) as [game|]; [|reflexivity].
  destruct (truthy_opt (guest game)); [reflexivity | discriminate].
Qed.

Lemma truthy_opt_ok gameId game :
  game_ok gameId game ->
  truthy_opt (guest game) = true <-> guest game <> None.
Proof.
  intros [_ Hg _ _]. destruct (guest game) as [g|]; simpl.
  - rewrite truthy_true. split; [discriminate | congruence].
  - split; [discriminate | congruence].
Qed.

Lemma onJoinGame_reply socketId now gameId playerName gm :
  (on socketId now (JoinGame gameId playerName) gm).2
    = [Callback (ReplyError "Game not found or full")] <->
  (joinGame now gameId socketId playerName gm).1 = None.
Proof.
  simpl. unfold onJoinGame.
  destruct (joinGame now gameId socketId playerName gm) as [[g|] gm'];
    simpl; split; try discriminate; reflexivity.
Qed.

End JoinGame.

(** C2, as stated, fails: [joinGame] never compares the caller with the
    host.  The host [socketA] of a waiting game joins its own game and
    becomes its guest too. *)
Lemma C2_host_joins_own_game :
  host <$> activeGames gm_created !! "ABCDEF"%string = Some "socketA"%string /\
  guest <$> activeGames gm_created !! "ABCDEF"%string = Some None /\
  guest <$> (joinGame 7 "ABCDEF" "socketA" "Alice" gm_created).1
    = Some (Some "socketA"%string) /\
  (on "socketA" 7 (JoinGame "ABCDEF" "Alice") gm_created).2
    = [Join "ABCDEF";
       Emit (Some "socketA"%string) "gameStart"
         [VObj (FCons "rightPlayer" (VStr "Alice") FNil)];
       Callback ReplySuccess].
Proof. vm_compute. repeat split; reflexivity. Qed.

(** C2 (amended).  On a running server [joinGame] fails, and the handler
    answers the caller ["Game not found or full"] and changes nothing,
    exactly when the id names no game or the game's guest slot is filled; a
    game whose status is [playing] always refuses.  The caller is not
    compared with the host: the host of a game whose guest slot is empty
    joins it as a guest. *)
Theorem C2_joinGame_fails_iff_missing_or_full
    gm now gameId guestId guestName0 :
  reachable gm ->
  ((joinGame now gameId guestId guestName0 gm).1 = None <->
   activeGames gm !! gameId = None \/
   exists game, activeGames gm !! gameId = Some game /\ guest game <> None) /\
  ((on guestId now (JoinGame gameId guestName0) gm).2
     = [Callback (ReplyError "Game not found or full")] <->
   (joinGame now gameId guestId guestName0 gm).1 = None) /\
  ((joinGame now gameId guestId guestName0 gm).1 = None ->
   (joinGame now gameId guestId guestName0 gm).2 = gm) /\
  (forall game,
     activeGames gm !! gameId = Some game -> status game = playing ->
     (joinGame now gameId guestId guestName0 gm).1 = None) /\
  (forall game,
     activeGames gm !! gameId = Some game -> guest game = None ->
     host game = guestId ->
     exists game',
       (joinGame now gameId guestId guestName0 gm).1 = Some game' /\
       host game' = guestId /\ guest game' = Some guestId /\
       status game' = playing /\
       activeGames (joinGame now gameId guestId guestName0 gm).2 !! gameId
         = Some game').
Proof.
  intros Hreach. pose proof (table_ok_reachable gm Hreach) as Hok.
  assert (Hiff : (joinGame now gameId guestId guestName0 gm).1 = None <->
            activeGames gm !! gameId = None \/
            exists game,
              activeGames gm !! gameId = Some game /\ guest game <> None).
  { rewrite joinGame_None. split.
    - intros [H | (game & Hg & Ht)]; [left; exact H | right].
      exists game. split; [exact Hg|].
      apply (truthy_opt_ok gameId game (Hok _ _ Hg)), Ht.
    - intros [H | (game & Hg & Ht)]; [left; exact H | right].
      exists game. split; [exact Hg|].
      apply (truthy_opt_ok gameId game (Hok _ _ Hg)), Ht. }
  split; [exact Hiff|].
  split; [apply onJoinGame_reply|].
  split; [apply joinGame_None_unchanged|].
  split.
  - intros game Hg Hs. apply Hiff. right. exists game. split; [exact Hg|].
    apply (ok_status _ _ (Hok _ _ Hg)), Hs.
  - intros game Hg Hgu Hh. unfold joinGame. rewrite Hg, Hgu. simpl.
    eexists. split; [reflexivity|]. simpl.
    rewrite lookup_insert_eq. auto.
Qed.

Lemma C2_joinGame_fails_iff_missing_or_full_witness :
  (joinGame 9 "ABCDEF" "socketC" "Carol" gm_joined).1 = None /\
  (on "socketC" 9 (JoinGame "ABCDEF" "Carol") gm_joined).2
    = [Callback (ReplyError "Game not found or full")].
Proof.
  pose proof (C2_joinGame_fails_iff_missing_or_full
                gm_joined 9 "ABCDEF" "socketC" "Carol" reachable_gm_joined)
    as (Hiff & Hreply & _).
  assert (H : (joinGame 9 "ABCDEF" "socketC" "Carol" gm_joined).1 = None).
  { apply Hiff. right. eexists. split; [vm_compute; reflexivity|].
    simpl. discriminate. }
  split; [exact H | apply Hreply, H].
Defined.

(** ** removeGame *)

Section RemoveGame.

Lemma removeGame_absent gameId gm :
  activeGames gm !! gameId = None -> removeGame gameId gm = gm.
Proof. intros H. unfold removeGame. rewrite H. reflexivity. Qed.

Lemma removeGame_lookup gameId gm :
  activeGames (removeGame gameId gm) !! gameId = None.
Proof. rewrite activeGames_removeGame. apply lookup_delete_eq. Qed.

Lemma removeGame_lookup_ne gameId gm k :
  k <> gameId ->
  activeGames (removeGame gameId gm) !! k = activeGames gm !! k.
Proof.
  intros H. rewrite activeGames_removeGame. apply lookup_delete_ne. congruence.
Qed.

Lemma removeGame_idempotent gameId gm :
  removeGame gameId (removeGame gameId gm) = removeGame gameId gm.
Proof. apply removeGame_absent, removeGame_lookup. Qed.

Lemma removeGame_playerSockets gameId game gm k :
  activeGames gm !! gameId = Some game ->
  guest game <> Some ""%string ->
  playerSockets (removeGame gameId gm) !! k =
  if bool_decide (k = host game \/ guest game = Some k) then None
  else playerSockets gm !! k.
Proof.
  intros Hg Hne. unfold removeGame. rewrite Hg. simpl.
  destruct (guest game) as [g|] eqn:Hgu.
  - assert (Ht : truthy g = true) by (apply truthy_true; congruence).
    rewrite Ht. case_bool_decide as Hd.
    + destruct (decide (g = k)) as [-> | Hgk]; [apply lookup_delete_eq|].
      rewrite lookup_delete_ne by exact Hgk.
      destruct Hd as [-> | Hd]; [apply lookup_delete_eq | congruence].
    + rewrite !lookup_delete_ne; [reflexivity | |];
        intros Heq; apply Hd; first [left; congruence | right; congruence].
  - case_bool_decide as Hd.
    + destruct Hd as [-> | Hd]; [apply lookup_delete_eq | discriminate].
    + rewrite lookup_delete_ne; [reflexivity|].
      intros Heq. apply Hd. left. congruence.
Qed.

End RemoveGame.

(** C5.  On a running server [removeGame] leaves the manager as it is when
    the id names no game, and doing it twice is doing it once; when the id
    names a game, the game is deleted from the table together with the
    membership entries of its host and of its guest, nothing else changes,
    and a [joinGame] with the removed id then fails as for an unknown id. *)
Theorem C5_removeGame_removes_game_and_members gm gameId :
  reachable gm ->
  (activeGames gm !! gameId = None -> removeGame gameId gm = gm) /\
  removeGame gameId (removeGame gameId gm) = removeGame gameId gm /\
  activeGames (removeGame gameId gm) !! gameId = None /\
  (forall game,
     activeGames gm !! gameId = Some game ->
     playerSockets (removeGame gameId gm) !! host game = None /\
     (forall g, guest game = Some g ->
                playerSockets (removeGame gameId gm) !! g = None) /\
     (forall k, k <> host game -> guest game <> Some k ->
                playerSockets (removeGame gameId gm) !! k
                = playerSockets gm !! k)) /\
  (forall k, k <> gameId ->
             activeGames (removeGame gameId gm) !! k = activeGames gm !! k) /\
  (forall now guestId guestName0,
     joinGame now gameId guestId guestName0 (removeGame gameId gm)
     = (None, removeGame gameId gm) /\
     (on guestId now (JoinGame gameId guestName0) (removeGame gameId gm)).2
     = [Callback (ReplyError "Game not found or full")]).
Proof.
  intros Hreach. pose proof (table_ok_reachable gm Hreach) as Hok.
  split; [apply removeGame_absent|].
  split; [apply removeGame_idempotent|].
  split; [apply removeGame_lookup|].
  split; [|split].
  - intros game Hg. pose proof (ok_guest _ _ (Hok _ _ Hg)) as Hne.
    split; [|split].
    + rewrite (removeGame_playerSockets _ _ _ _ Hg Hne).
      rewrite bool_decide_eq_true_2; auto.
    + intros g Hgu. rewrite (removeGame_playerSockets _ _ _ _ Hg Hne).
      rewrite bool_decide_eq_true_2; auto.
    + intros k Hk Hgu. rewrite (removeGame_playerSockets _ _ _ _ Hg Hne).
      rewrite bool_decide_eq_false_2; [reflexivity | tauto].
  - intros k Hk. apply removeGame_lookup_ne, Hk.
  - intros now guestId guestName0.
    assert (Hj : joinGame now gameId guestId guestName0 (removeGame gameId gm)
                 = (None, removeGame gameId gm)).
    { unfold joinGame. rewrite removeGame_lookup. reflexivity. }
    split; [exact Hj|].
    simpl. unfold onJoinGame. rewrite Hj. reflexivity.
Qed.

Lemma C5_removeGame_removes_game_and_members_witness :
  activeGames (removeGame "ABCDEF" gm_joined) !! "ABCDEF"%string = None /\
  playerSockets (removeGame "ABCDEF" gm_joined) !! "socketA"%string = None /\
  playerSockets (removeGame "ABCDEF" gm_joined) !! "socketB"%string = None /\
  (joinGame 9 "ABCDEF" "socketC" "Carol" (removeGame "ABCDEF" gm_joined)).1
    = None.
Proof.
  pose proof (C5_removeGame_removes_game_and_members
                gm_joined "ABCDEF" reachable_gm_joined)
    as (_ & _ & Hgone & Hmembers & _ & Hjoin).
  assert (Hg : activeGames gm_joined !! "ABCDEF"%string
               = Some {| id := "ABCDEF"; host := "socketA";
                         hostName := "Alice"; guest := Some "socketB"%string;
                         guestName := Some "Bob"%string; ball := VNull;
                         leftScore := VNum 0; rightScore := VNum 0;
                         leftPaddle_y := VNum 0; rightPaddle_y := VNum 0;
                         remainingTime := VNum 120; lastActivity := 7;
                         status := playing |})
    by (vm_compute; reflexivity).
  destruct (Hmembers _ Hg) as (Hhost & Hguest & _).
  split; [exact Hgone|].
  split; [exact Hhost|].
  split; [apply Hguest; reflexivity|].
  destruct (Hjoin 9 "socketC"%string "Carol"%string) as [Hj _].
  rewrite Hj. reflexivity.
Defined.

(** ** cleanupInactiveGames *)

Section Cleanup.

Lemma inactive_true now game :
  inactive now game = true <-> lastActivity game < now - inactiveThreshold.
Proof. unfold inactive. rewrite Z.gtb_ltb, Z.ltb_lt. lia. Qed.

Lemma foldl_cleanup_absent now entries gm k :
  activeGames gm !! k = None ->
  activeGames (foldl (cleanupEntry now) gm entries) !! k = None.
Proof.
  revert gm. induction entries as [|e entries IH]; intros gm H; simpl.
  - exact H.
  - apply IH. unfold cleanupEntry.
    destruct (now - lastActivity e.2 >? inactiveThreshold); [|exact H].
    rewrite activeGames_removeGame, lookup_delete.
    case_decide; [reflexivity | exact H].
Qed.

Lemma foldl_cleanup_inactive now entries gm k game :
  (k, game) ∈ entries -> inactive now game = true ->
  activeGames (foldl (cleanupEntry now) gm entries) !! k = None.
Proof.
  revert gm. induction entries as [|e entries IH]; intros gm Hin Hi.
  - inversion Hin.
  - simpl. apply elem_of_cons in Hin as [<- | Hin].
    + apply foldl_cleanup_absent. unfold cleanupEntry. simpl.
      unfold inactive in Hi. rewrite Hi. apply removeGame_lookup.
    + apply IH; assumption.
Qed.

Lemma foldl_cleanup_active now entries gm k :
  (forall game, (k, game) ∈ entries -> inactive now game = false) ->
  activeGames (foldl (cleanupEntry now) gm entries) !! k
  = activeGames gm !! k.
Proof.
  revert gm. induction entries as [|[k' g'] entries IH]; intros gm H; simpl.
  - reflexivity.
  - rewrite IH by (intros game Hin; apply H; right; exact Hin).
    unfold cleanupEntry. simpl.
    destruct (now - lastActivity g' >? inactiveThreshold) eqn:Hi;
      [|reflexivity].
    apply removeGame_lookup_ne. intros ->.
    specialize (H g' (list_elem_of_here _ _)).
    unfold inactive in H. congruence.
Qed.

Lemma cleanupInactiveGames_lookup now gm k :
  activeGames (cleanupInactiveGames now gm) !! k =
  match activeGames gm !! k with
  | Some game => if inactive now game then None else Some game
  | None => None
  end.
Proof.
  unfold cleanupInactiveGames.
  destruct (activeGames gm !! k) as [game|] eqn:Hg.
  - destruct (inactive now game) eqn:Hi.
    + apply (foldl_cleanup_inactive now _ gm k game); [|exact Hi].
      apply elem_of_map_to_list, Hg.
    + rewrite foldl_cleanup_active; [exact Hg|].
      intros game' Hin. apply elem_of_map_to_list in Hin.
      rewrite Hg in Hin. injection Hin as <-. exact Hi.
  - apply foldl_cleanup_absent, Hg.
Qed.

End Cleanup.

(** C6.  The sweep run at time [now] deletes from the table exactly the games
    whose [lastActivity] is before [now] minus the five-minute threshold; a
    game that is not deleted is found under its id with every field as it
    was, and the sweep adds no game. *)
Theorem C6_cleanup_removes_exactly_inactive now gm gameId :
  (forall game,
     activeGames gm !! gameId = Some game ->
     (activeGames (cleanupInactiveGames now gm) !! gameId = None <->
      lastActivity game < now - inactiveThreshold) /\
     (~ lastActivity game < now - inactiveThreshold ->
      activeGames (cleanupInactiveGames now gm) !! gameId = Some game)) /\
  (activeGames gm !! gameId = None ->
   activeGames (cleanupInactiveGames now gm) !! gameId = None) /\
  activeGames (cleanupInactiveGames now gm)
  = filter (fun entry => ~ lastActivity entry.2 < now - inactiveThreshold)
      (activeGames gm).
Proof.
  split; [|split].
  - intros game Hg. rewrite cleanupInactiveGames_lookup, Hg.
    destruct (inactive now game) eqn:Hi.
    + apply inactive_true in Hi. split; [tauto | contradiction].
    + assert (~ lastActivity game < now - inactiveThreshold) as Hn.
      { rewrite <- inactive_true. congruence. }
      split; [split; [discriminate | contradiction] | reflexivity].
  - intros Hg. rewrite cleanupInactiveGames_lookup, Hg. reflexivity.
  - apply map_eq. intros k. rewrite cleanupInactiveGames_lookup.
    destruct (activeGames gm !! k) as [game|] eqn:Hg.
    + destruct (inactive now game) eqn:Hi.
      * symmetry. apply map_lookup_filter_None. right.
        intros game' Hg' Hn. rewrite Hg in Hg'. injection Hg' as <-.
        apply Hn. apply inactive_true, Hi.
      * symmetry. apply map_lookup_filter_Some. split; [exact Hg|].
        simpl. rewrite <- inactive_true. congruence.
    + symmetry. apply map_lookup_filter_None. left. exact Hg.
Qed.

(** ** Updates only the host may send *)

(** C7.  A [ballUpdate], [scoreUpdate] or [timerUpdate] of a connection that
    is not the host of the game its membership entry names (the guest of the
    game, a connection with no entry, a connection whose entry names no game)
    is dropped: the manager is the one before, [lastActivity] included, and
    the handler neither answers nor emits. *)
Theorem C7_update_of_non_host_is_dropped socketId now ev gm :
  hostUpdate ev = true ->
  ~ registeredHost socketId gm ->
  on socketId now ev gm = (gm, []).
Proof.
  intros Hev Hnot.
  assert (Hdrop : forall gameId game,
            currentGame socketId gm = Some (gameId, game) ->
            negb (String.eqb socketId (host game)) = true).
  { intros gameId game Hc. apply currentGame_Some in Hc as (Hp & _ & Hg).
    apply negb_true_iff, String.eqb_neq. intros Hh. apply Hnot.
    exists gameId, game. auto. }
  destruct ev; try discriminate Hev; simpl;
    unfold onBallUpdate, onScoreUpdate, onTimerUpdate;
    destruct (currentGame socketId gm) as [[gameId game]|] eqn:Hc;
    try reflexivity;
    rewrite (Hdrop gameId game eq_refl); reflexivity.
Qed.

Lemma C7_update_of_non_host_is_dropped_witness :
  on "socketB" 9 (BallUpdate (VObj (FCons "x" (VNum 1) (FCons "y" (VNum 2) FNil))))
     gm_joined
  = (gm_joined, []) /\
  on "socketC" 9 (TimerUpdate (VNum 60)) gm_joined = (gm_joined, []).
Proof.
  split.
  - apply C7_update_of_non_host_is_dropped; [reflexivity|].
    intros (gameId & game & Hp & Hg & Hh).
    vm_compute in Hp. injection Hp as <-.
    vm_compute in Hg. injection Hg as <-.
    discriminate Hh.
  - apply C7_update_of_non_host_is_dropped; [reflexivity|].
    intros (gameId & game & Hp & _).
    vm_compute in Hp. discriminate Hp.
Defined.

(** ** The guest leaves *)

(** C4, as stated, fails: the guest branch of the disconnect handler does not
    assign [lastActivity].  The game joined at time 7 still has
    [lastActivity] 7 after its guest disconnects at time 99. *)
Lemma C4_guest_disconnect_keeps_lastActivity :
  lastActivity <$> activeGames gm_joined !! "ABCDEF"%string = Some 7 /\
  guest <$> activeGames gm_joined !! "ABCDEF"%string
    = Some (Some "socketB"%string) /\
  lastActivity
    <$> activeGames (on "socketB" 99 Disconnect gm_joined).1 !! "ABCDEF"%string
    = Some 7 /\
  lastActivity
    <$> activeGames (on "socketB" 99 Disconnect gm_joined).1 !! "ABCDEF"%string
    <> Some 99.
Proof. vm_compute. repeat split; try reflexivity. discriminate. Qed.

(** C4 (amended).  When the guest of a game disconnects (its membership entry
    names the game, under a non-empty id, and it is not also the host), the
    game stays in the table with its guest slot and guest name cleared and
    its status [waiting], every other field, [lastActivity] included, as it
    was; the guest's membership entry is removed, the host's is unchanged,
    and the host is sent [guestDisconnected]. *)
Theorem C4_guest_disconnect socketId now gm gameId game :
  playerSockets gm !! socketId = Some gameId ->
  gameId <> ""%string ->
  activeGames gm !! gameId = Some game ->
  guest game = Some socketId ->
  host game <> socketId ->
  let gm' := (on socketId now Disconnect gm).1 in
  activeGames gm' !! gameId
    = Some (set_status waiting (set_guestName None (set_guest None game))) /\
  (forall game',
     activeGames gm' !! gameId = Some game' ->
     guest game' = None /\ guestName game' = None /\ status game' = waiting /\
     lastActivity game' = lastActivity game /\
     id game' = id game /\ host game' = host game /\
     hostName game' = hostName game /\ ball game' = ball game /\
     leftScore game' = leftScore game /\ rightScore game' = rightScore game /\
     leftPaddle_y game' = leftPaddle_y game /\
     rightPaddle_y game' = rightPaddle_y game /\
     remainingTime game' = remainingTime game) /\
  playerSockets gm' !! socketId = None /\
  playerSockets gm' !! host game = playerSockets gm !! host game /\
  (forall k, k <> gameId -> activeGames gm' !! k = activeGames gm !! k) /\
  (on socketId now Disconnect gm).2
    = [Emit (Some (host game)) "guestDisconnected" []].
Proof.
  intros Hp Hne Hg Hgu Hh. cbn zeta. simpl. unfold onDisconnect.
  assert (Hc : currentGame socketId gm = Some (gameId, game))
    by (apply currentGame_Some; auto).
  rewrite Hc.
  assert (He : String.eqb socketId (host game) = false)
    by (apply String.eqb_neq; congruence).
  rewrite He, bool_decide_eq_true_2 by exact Hgu. simpl.
  assert (Hl : <[gameId := set_status waiting
                             (set_guestName None (set_guest None game))]>
                 (activeGames gm) !! gameId
               = Some (set_status waiting
                         (set_guestName None (set_guest None game))))
    by apply lookup_insert_eq.
  split; [exact Hl|].
  split.
  { intros game' Hg'. rewrite Hl in Hg'. injection Hg' as <-.
    simpl. repeat split; reflexivity. }
  split; [apply lookup_delete_eq|].
  split; [apply lookup_delete_ne; congruence|].
  split; [|reflexivity].
  intros k Hk. apply lookup_insert_ne. congruence.
Qed.

Lemma C4_guest_disconnect_witness :
  activeGames (on "socketB" 99 Disconnect gm_joined).1 !! "ABCDEF"%string
  = Some {| id := "ABCDEF"; host := "socketA"; hostName := "Alice";
            guest := None; guestName := None; ball := VNull;
            leftScore := VNum 0; rightScore := VNum 0;
            leftPaddle_y := VNum 0; rightPaddle_y := VNum 0;
            remainingTime := VNum 120; lastActivity := 7;
            status := waiting |} /\
  playerSockets (on "socketB" 99 Disconnect gm_joined).1 !! "socketB"%string
  = None /\
  playerSockets (on "socketB" 99 Disconnect gm_joined).1 !! "socketA"%string
  = Some "ABCDEF"%string.
Proof.
  pose proof (C4_guest_disconnect "socketB" 99 gm_joined "ABCDEF"
                {| id := "ABCDEF"; host := "socketA"; hostName := "Alice";
                   guest := Some "socketB"%string;
                   guestName := Some "Bob"%string; ball := VNull;
                   leftScore := VNum 0; rightScore := VNum 0;
                   leftPaddle_y := VNum 0; rightPaddle_y := VNum 0;
                   remainingTime := VNum 120; lastActivity := 7;
                   status := playing |}) as H.
  cbn zeta in H.
  destruct H as (Hgame & _ & Hguest & Hhost & _).
  - vm_compute. reflexivity.
  - discriminate.
  - vm_compute. reflexivity.
  - reflexivity.
  - simpl. discriminate.
  - split; [exact Hgame|]. split; [exact Hguest|].
    etransitivity; [exact Hhost|]. vm_compute. reflexivity.
Defined.

(** ** The list of waiting games *)

Section AvailableGames.

Lemma getAvailableGames_elem gm entry :
  entry ∈ getAvailableGames gm <->
  exists gameId game,
    activeGames gm !! gameId = Some game /\ status game = waiting /\
    entry = availableGame game.
Proof.
  unfold getAvailableGames. rewrite list_elem_of_fmap. split.
  - intros (game & -> & Hin). apply list_elem_of_filter in Hin as [Hs Hin].
    apply list_elem_of_fmap in Hin as ([k g] & -> & Hin).
    apply elem_of_map_to_list in Hin. exists k, g. auto.
  - intros (k & game & Hg & Hs & ->). exists game. split; [reflexivity|].
    apply list_elem_of_filter. split; [exact Hs|].
    apply list_elem_of_fmap. exists (k, game). split; [reflexivity|].
    apply elem_of_map_to_list, Hg.
Qed.

(** The games listed are exactly the waiting ones. *)
Lemma getAvailableGames_ids gm gameId :
  table_ok gm ->
  (exists entry, entry ∈ getAvailableGames gm /\ Listing.id entry = gameId) <->
  (exists game, activeGames gm !! gameId = Some game /\ status game = waiting).
Proof.
  intros Hok. split.
  - intros (entry & Hin & Hid).
    apply getAvailableGames_elem in Hin as (k & game & Hg & Hs & ->).
    simpl in Hid. rewrite (ok_id _ _ (Hok _ _ Hg)) in Hid. subst k. eauto.
  - intros (game & Hg & Hs). exists (availableGame game). split.
    + apply getAvailableGames_elem. eauto.
    + simpl. apply (ok_id _ _ (Hok _ _ Hg)).
Qed.

(** A game whose guest has disconnected is listed again. *)
Lemma getAvailableGames_after_guest_left :
  getAvailableGames gm_joined = [] /\
  getAvailableGames (on "socketB" 99 Disconnect gm_joined).1
  = [{| Listing.id := "ABCDEF"; Listing.name := "Alice's Game";
        Listing.createdAt := 7 |}].
Proof. vm_compute. split; reflexivity. Qed.

End AvailableGames.

(** The list of the stand-alone server holds the waiting games too; its
    entries have an id and a name and no [createdAt]. *)
Lemma standalone_requestGameList_elem
    (games : gmap string Standalone.Game) entry :
  entry ∈ Standalone.requestGameList games <->
  exists gameId game,
    games !! gameId = Some game /\
    Standalone.status game = Standalone.waiting /\
    Standalone.Listing.id entry = Standalone.id game /\
    Standalone.Listing.name entry
    = String.append (Standalone.hostName game) "'s Game".
Proof.
  unfold Standalone.requestGameList. rewrite list_elem_of_fmap. split.
  - intros (game & -> & Hin). apply list_elem_of_filter in Hin as [Hs Hin].
    apply list_elem_of_fmap in Hin as ([k g] & -> & Hin).
    apply elem_of_map_to_list in Hin. exists k, g. simpl. auto.
  - intros (k & game & Hg & Hs & Hi & Hn). exists game. split.
    + destruct entry as [i n]. simpl in *. subst. reflexivity.
    + apply list_elem_of_filter. split; [exact Hs|].
      apply list_elem_of_fmap. exists (k, game). split; [reflexivity|].
      apply elem_of_map_to_list, Hg.
Qed.

(** C9 (the code falls short of the claim).  The listing holds the waiting
    games, but the field [createdAt] of an entry is filled from
    [lastActivity], not from the time of creation: the game created at time
    1000 whose host answered a heartbeat at time 16000 is listed with
    [createdAt] 16000. *)
Theorem C9_createdAt_is_lastActivity :
  lastActivity
    (createGame draw_abcdef 1000 "socketA" "Alice" newGameManager).1 = 1000 /\
  (on "socketA" 16000 RequestGameList gm_ponged).2
  = [Callback
       (ReplyGameList
          [{| Listing.id := "ABCDEF"; Listing.name := "Alice's Game";
              Listing.createdAt := 16000 |}])] /\
  (forall gm entry,
     entry ∈ getAvailableGames gm <->
     exists gameId game,
       activeGames gm !! gameId = Some game /\ status game = waiting /\
       Listing.id entry = id game /\
       Listing.name entry = String.append (hostName game) "'s Game" /\
       Listing.createdAt entry = lastActivity game).
Proof.
  split; [reflexivity|]. split; [vm_compute; reflexivity|].
  intros gm entry. rewrite getAvailableGames_elem.
  split; intros (k & game & Hg & Hs & H); exists k, game.
  - subst entry. simpl. auto.
  - destruct H as (Hi & Hn & Hc). destruct entry as [i n c]. simpl in *.
    subst. auto.
Qed.

(** ** A host that creates a second game *)

(** C10, as stated, fails for two kinds of draw.  When the generator returns
    the id of the first game again, no second game is created: the new game
    replaces the first under its id, and the host's disconnect leaves the
    table empty.  When the generator returns the empty id, the second game
    is stored under [""], which the disconnect handler takes for no game: it
    returns at once and removes neither game, nor the membership entry. *)
Lemma C10_colliding_or_empty_id :
  let gm1 := (on "socketA" 3 (CreateGame "Alice" draw_abcdef') gm_created).1 in
  let gm2 := (on "socketA" 4 Disconnect gm1).1 in
  let gm1' := (on "socketA" 3 (CreateGame "Alice" []) gm_created).1 in
  let gm2' := (on "socketA" 4 Disconnect gm1').1 in
  playerSockets gm_created !! "socketA"%string = Some "ABCDEF"%string /\
  host <$> activeGames gm_created !! "ABCDEF"%string = Some "socketA"%string /\
  lastActivity <$> activeGames gm_created !! "ABCDEF"%string = Some 0 /\
  size (activeGames gm1) = 1%nat /\
  lastActivity <$> activeGames gm1 !! "ABCDEF"%string = Some 3 /\
  activeGames gm2 !! "ABCDEF"%string = None /\
  size (activeGames gm2) = 0%nat /\
  size (activeGames gm1') = 2%nat /\
  playerSockets gm1' !! "socketA"%string = Some ""%string /\
  gm2' = gm1' /\
  host <$> activeGames gm2' !! ""%string = Some "socketA"%string.
Proof. vm_compute. repeat split; reflexivity. Qed.

(** C10 (amended).  Let [socketId] be the host of a game stored under
    [gameId], and let it send [createGame] again, the generator returning a
    non-empty id other than [gameId].  Then a second game is in the table,
    the membership entry of [socketId] names the second game, and the first
    game is in the table as before, [socketId] still its host.  When
    [socketId] then disconnects, only the second game is removed; the first
    stays, and a later sweep deletes it once its [lastActivity] is older
    than the threshold. *)
Theorem C10_second_createGame_orphans_first
    socketId gm gameId game ds now1 playerName now2 :
  playerSockets gm !! socketId = Some gameId ->
  activeGames gm !! gameId = Some game ->
  host game = socketId ->
  generateGameId ds <> gameId ->
  generateGameId ds <> ""%string ->
  let gm1 := (on socketId now1 (CreateGame playerName ds) gm).1 in
  let gm2 := (on socketId now2 Disconnect gm1).1 in
  (exists game2,
     activeGames gm1 !! generateGameId ds = Some game2 /\
     host game2 = socketId /\ guest game2 = None /\ status game2 = waiting) /\
  playerSockets gm1 !! socketId = Some (generateGameId ds) /\
  activeGames gm1 !! gameId = Some game /\
  activeGames gm2 !! generateGameId ds = None /\
  activeGames gm2 !! gameId = Some game /\
  (forall k, k <> generateGameId ds ->
             activeGames gm2 !! k = activeGames gm !! k) /\
  playerSockets gm2 !! socketId = None /\
  (forall now3,
     activeGames (cleanupInactiveGames now3 gm2) !! gameId
     = if inactive now3 game then None else Some game).
Proof.
  intros Hp Hg Hh Hne Hne0. cbn zeta.
  change (on socketId now1 (CreateGame playerName ds) gm).1
    with (createGame ds now1 socketId playerName gm).2.
  set (gm1 := (createGame ds now1 socketId playerName gm).2).
  set (game2 := (createGame ds now1 socketId playerName gm).1).
  assert (Hg2 : activeGames gm1 !! generateGameId ds = Some game2)
    by apply createGame_lookup.
  assert (Hp1 : playerSockets gm1 !! socketId = Some (generateGameId ds))
    by apply createGame_playerSockets.
  assert (Hg1 : activeGames gm1 !! gameId = Some game).
  { unfold gm1. rewrite createGame_lookup_ne by congruence. exact Hg. }
  assert (Hc : currentGame socketId gm1 = Some (generateGameId ds, game2))
    by (apply currentGame_Some; auto).
  assert (Hd : (on socketId now2 Disconnect gm1).1
               = forgetSocket socketId (removeGame (generateGameId ds) gm1)).
  { simpl. unfold onDisconnect. rewrite Hc.
    change (host game2) with socketId. rewrite String.eqb_refl. reflexivity. }
  rewrite Hd.
  assert (Hk : forall k, k <> generateGameId ds ->
                 activeGames
                   (forgetSocket socketId (removeGame (generateGameId ds) gm1))
                   !! k
                 = activeGames gm !! k).
  { intros k Hk. simpl. rewrite removeGame_lookup_ne by exact Hk.
    apply createGame_lookup_ne, Hk. }
  assert (Hg' : activeGames
                  (forgetSocket socketId (removeGame (generateGameId ds) gm1))
                  !! gameId = Some game).
  { rewrite Hk by congruence. exact Hg. }
  split; [exists game2; auto|].
  split; [exact Hp1|].
  split; [exact Hg1|].
  split; [simpl; apply removeGame_lookup|].
  split; [exact Hg'|].
  split; [exact Hk|].
  split; [simpl; apply lookup_delete_eq|].
  intros now3. rewrite cleanupInactiveGames_lookup, Hg'. reflexivity.
Qed.

Lemma C10_second_createGame_orphans_first_witness :
  let gm1 :=
    (on "socketA" 3 (CreateGame "Alice" [1; 2; 3; 4; 5; 6]%nat) gm_created).1 in
  let gm2 := (on "socketA" 4 Disconnect gm1).1 in
  playerSockets gm1 !! "socketA"%string = Some "123456"%string /\
  activeGames gm2 !! "123456"%string = None /\
  host <$> activeGames gm2 !! "ABCDEF"%string = Some "socketA"%string /\
  activeGames (cleanupInactiveGames 300001 gm2) !! "ABCDEF"%string = None.
Proof.
  cbn zeta.
  pose proof (C10_second_createGame_orphans_first
                "socketA" gm_created "ABCDEF"
                {| id := "ABCDEF"; host := "socketA"; hostName := "Alice";
                   guest := None; guestName := None; ball := VNull;
                   leftScore := VNum 0; rightScore := VNum 0;
                   leftPaddle_y := VNum 0; rightPaddle_y := VNum 0;
                   remainingTime := VNum 120; lastActivity := 0;
                   status := waiting |}
                [1; 2; 3; 4; 5; 6]%nat 3 "Alice" 4) as H.
  cbn zeta in H.
  destruct H as (_ & Hp1 & _ & Hgone & Hstays & _ & _ & Hsweep).
  - vm_compute. reflexivity.
  - vm_compute. reflexivity.
  - reflexivity.
  - vm_compute. discriminate.
  - vm_compute. discriminate.
  - split; [exact Hp1|]. split; [exact Hgone|].
    split; [rewrite Hstays; reflexivity|].
    rewrite (Hsweep 300001). reflexivity.
Defined.


(** * Further properties of the registry and the router *)

(** ** The identifier generator, for every draw *)

Section GeneratorDigits.

Lemma substring_0_digits36 m ds :
  String.substring 0 m (digits36 ds) = digits36 (firstn m ds).
Proof.
  revert ds; induction m as [|m IH]; intros [|d ds]; simpl; try reflexivity.
  rewrite IH. reflexivity.
Qed.

Lemma generateGameId_firstn ds :
  generateGameId ds = toUpperCase (digits36 (firstn 6 ds)).
Proof.
  destruct ds as [|d ds]; [reflexivity|].
  rewrite generateGameId_cons, substring_0_digits36. reflexivity.
Qed.

Lemma digits36_length ds : String.length (digits36 ds) = length ds.
Proof. induction ds as [|d ds IH]; simpl; congruence. Qed.

Lemma digits36_upper ds :
  string_forallb is_upper_alnum (toUpperCase (digits36 ds)) = true.
Proof.
  induction ds as [|d ds IH]; simpl; [reflexivity|].
  rewrite digit36_upper, IH. reflexivity.
Qed.

End GeneratorDigits.

(** X1.  For every draw the id has as many characters as the draw prints
    digits, up to six, and each of them is a digit or an upper-case letter;
    the id is the empty string exactly for the draw that prints no digit. *)
Theorem X1_generateGameId_length_and_alphabet ds :
  String.length (generateGameId ds) = Nat.min 6 (length ds) /\
  string_forallb is_upper_alnum (generateGameId ds) = true /\
  (generateGameId ds = ""%string <-> ds = []).
Proof.
  rewrite generateGameId_firstn.
  split; [|split].
  - rewrite toUpperCase_length, digits36_length. apply length_firstn.
  - apply digits36_upper.
  - split.
    + destruct ds as [|d ds]; [reflexivity|]. simpl. discriminate.
    + intros ->. reflexivity.
Qed.

(** X2.  The id is a function of the first six digits of the draw: two draws
    that agree on them give the same id, whatever follows. *)
Theorem X2_generateGameId_first_six_digits ds ds' :
  firstn 6 ds = firstn 6 ds' ->
  generateGameId ds = generateGameId ds'.
Proof. intros H. rewrite !generateGameId_firstn, H. reflexivity. Qed.

Lemma X2_generateGameId_first_six_digits_witness :
  draw_abcdef <> draw_abcdef' /\
  generateGameId draw_abcdef = generateGameId draw_abcdef'.
Proof.
  split; [discriminate|].
  apply X2_generateGameId_first_six_digits. reflexivity.
Defined.

(** ** Events of a connection without a current game *)

Section NoCurrentGame.

Lemma currentGame_None socketId gm :
  currentGame socketId gm = None <->
  playerSockets gm !! socketId = None \/
  playerSockets gm !! socketId = Some ""%string \/
  exists gameId,
    playerSockets gm !! socketId = Some gameId /\
    activeGames gm !! gameId = None.
Proof.
  unfold currentGame, currentGameId.
  destruct (playerSockets gm !! socketId) as [gid|] eqn:Hp.
  - destruct (truthy gid) eqn:Ht.
    + apply truthy_true in Ht.
      destruct (activeGames gm !! gid) as [game|] eqn:Hg.
      * split; [discriminate|].
        intros [H | [H | (k & H & Hk)]]; congruence.
      * split; [|reflexivity]. intros _. right. right. eauto.
    + apply truthy_false in Ht. subst gid.
      split; [|reflexivity]. intros _. right. left. reflexivity.
  - split; [|reflexivity]. intros _. left. reflexivity.
Qed.

Lemma on_without_currentGame socketId now ev gm :
  membershipEvent ev = true ->
  currentGame socketId gm = None ->
  on socketId now ev gm = (gm, []).
Proof.
  intros Hev Hc.
  destruct ev; try discriminate Hev; simpl;
    unfold onPong, onPaddleMove, onBallUpdate, onScoreUpdate, onTimerUpdate,
      onGameEnd, onDisconnect;
    rewrite Hc; reflexivity.
Qed.

End NoCurrentGame.

(** X3.  A pong, paddle move, host update, game end or disconnect of a
    connection that has no membership entry, whose entry is the empty id, or
    whose entry names an id that is not in the table, does nothing at all:
    the manager is unchanged (a disconnect does not even delete the entry)
    and nothing is emitted. *)
Theorem X3_no_current_game_no_effect socketId now ev gm :
  membershipEvent ev = true ->
  (playerSockets gm !! socketId = None \/
   playerSockets gm !! socketId = Some ""%string \/
   exists gameId,
     playerSockets gm !! socketId = Some gameId /\
     activeGames gm !! gameId = None) ->
  on socketId now ev gm = (gm, []).
Proof.
  intros Hev H. apply on_without_currentGame; [exact Hev|].
  apply currentGame_None, H.
Qed.

Lemma X3_no_current_game_no_effect_witness :
  let gm := (on "socketA" 0 (CreateGame "Alice" []) newGameManager).1 in
  host <$> activeGames gm !! ""%string = Some "socketA"%string /\
  on "socketA" 5 GameEnd gm = (gm, []) /\
  on "socketA" 6 Disconnect gm = (gm, []).
Proof.
  cbn zeta. split; [vm_compute; reflexivity|].
  split; apply X3_no_current_game_no_effect; try reflexivity;
    right; left; vm_compute; reflexivity.
Defined.

(** ** Relayed events of a connection with a current game *)

Section Relay.

Context (socketId : string) (now : Z) (gm : GameManager).
Context (gameId : string) (game : Game).
Hypothesis Hentry : playerSockets gm !! socketId = Some gameId.
Hypothesis HgameId : gameId <> ""%string.
Hypothesis Hgame : activeGames gm !! gameId = Some game.

Lemma currentGame_here : currentGame socketId gm = Some (gameId, game).
Proof. apply currentGame_Some. auto. Qed.

Lemma storeGame_lookup game' :
  activeGames (storeGame gameId game' gm) !! gameId = Some game'.
Proof. simpl. apply lookup_insert_eq. Qed.

Lemma storeGame_lookup_ne game' k :
  k <> gameId ->
  activeGames (storeGame gameId game' gm) !! k = activeGames gm !! k.
Proof. intros H. simpl. apply lookup_insert_ne. congruence. Qed.

Lemma onPong_here :
  on socketId now Pong gm = (storeGame gameId (set_lastActivity now game) gm, []).
Proof. simpl. unfold onPong. rewrite currentGame_here. reflexivity. Qed.

Lemma hostUpdate_here ev :
  host game = socketId ->
  hostUpdate ev = true ->
  on socketId now ev gm =
  match ev with
  | BallUpdate b =>
      (storeGame gameId (set_lastActivity now (set_ball b game)) gm,
       [Emit (guest game) "ballUpdate" [VObj (FCons "ball" b FNil)]])
  | ScoreUpdate l r =>
      (storeGame gameId
         (set_lastActivity now (set_rightScore r (set_leftScore l game))) gm,
       [Emit (guest game) "scoreUpdate"
          [VObj (FCons "leftScore" l (FCons "rightScore" r FNil))]])
  | TimerUpdate t =>
      (storeGame gameId (set_lastActivity now (set_remainingTime t game)) gm,
       [Emit (guest game) "timerUpdate" [VObj (FCons "remainingTime" t FNil)]])
  | _ => (gm, [])
  end.
Proof.
  intros Hh Hev. destruct ev; try discriminate Hev; simpl;
    unfold onBallUpdate, onScoreUpdate, onTimerUpdate;
    rewrite currentGame_here, Hh, String.eqb_refl; reflexivity.
Qed.

Lemma onPaddleMove_here y :
  on socketId now (PaddleMove y) gm =
  if String.eqb socketId (host game) then
    (storeGame gameId (set_leftPaddle_y y (set_lastActivity now game)) gm,
     [Emit (guest game) "paddleMove" [VObj (FCons "y" y FNil)]])
  else if bool_decide (guest game = Some socketId) then
    (storeGame gameId (set_rightPaddle_y y (set_lastActivity now game)) gm,
     [Emit (Some (host game)) "paddleMove" [VObj (FCons "y" y FNil)]])
  else (storeGame gameId (set_lastActivity now game) gm, []).
Proof. simpl. unfold onPaddleMove. rewrite currentGame_here. reflexivity. Qed.

End Relay.

(** X4.  A [ballUpdate], [scoreUpdate] or [timerUpdate] of the host of its
    current game is stored in the game and forwarded once, to the guest
    slot: the reported fields take the payload, [lastActivity] becomes
    [now], every other field of the game, every other game and the
    membership index are unchanged. *)
Theorem X4_host_update_stored_and_forwarded socketId now ev gm gameId game :
  playerSockets gm !! socketId = Some gameId ->
  gameId <> ""%string ->
  activeGames gm !! gameId = Some game ->
  host game = socketId ->
  hostUpdate ev = true ->
  exists game',
    activeGames (on socketId now ev gm).1 !! gameId = Some game' /\
    lastActivity game' = now /\
    same_identity game game' /\ same_seats game game' /\
    leftPaddle_y game' = leftPaddle_y game /\
    rightPaddle_y game' = rightPaddle_y game /\
    match ev with
    | BallUpdate b =>
        ball game' = b /\ leftScore game' = leftScore game /\
        rightScore game' = rightScore game /\
        remainingTime game' = remainingTime game /\
        (on socketId now ev gm).2
        = [Emit (guest game) "ballUpdate" [VObj (FCons "ball" b FNil)]]
    | ScoreUpdate l r =>
        leftScore game' = l /\ rightScore game' = r /\
        ball game' = ball game /\ remainingTime game' = remainingTime game /\
        (on socketId now ev gm).2
        = [Emit (guest game) "scoreUpdate"
             [VObj (FCons "leftScore" l (FCons "rightScore" r FNil))]]
    | TimerUpdate t =>
        remainingTime game' = t /\ ball game' = ball game /\
        leftScore game' = leftScore game /\
        rightScore game' = rightScore game /\
        (on socketId now ev gm).2
        = [Emit (guest game) "timerUpdate"
             [VObj (FCons "remainingTime" t FNil)]]
    | _ => True
    end /\
    (forall k, k <> gameId ->
               activeGames (on socketId now ev gm).1 !! k = activeGames gm !! k) /\
    playerSockets (on socketId now ev gm).1 = playerSockets gm.
Proof.
  intros Hp Hne Hg Hh Hev.
  rewrite (hostUpdate_here socketId now gm gameId game Hp Hne Hg ev Hh Hev).
  destruct ev; try discriminate Hev; eexists;
    (split; [apply storeGame_lookup|]);
    unfold same_identity, same_seats; simpl;
    repeat split; try reflexivity;
    intros k Hk; apply lookup_insert_ne; congruence.
Qed.

Lemma X4_host_update_stored_and_forwarded_witness :
  let r := on "socketA" 9 (ScoreUpdate (VNum 1) (VNum 0)) gm_joined in
  activeGames r.1 !! "ABCDEF"%string
  = Some {| id := "ABCDEF"; host := "socketA"; hostName := "Alice";
            guest := Some "socketB"%string; guestName := Some "Bob"%string;
            ball := VNull; leftScore := VNum 1; rightScore := VNum 0;
            leftPaddle_y := VNum 0; rightPaddle_y := VNum 0;
            remainingTime := VNum 120; lastActivity := 9;
            status := playing |} /\
  r.2 = [Emit (Some "socketB"%string) "scoreUpdate"
           [VObj (FCons "leftScore" (VNum 1) (FCons "rightScore" (VNum 0) FNil))]].
Proof.
  cbn zeta.
  destruct (X4_host_update_stored_and_forwarded
              "socketA" 9 (ScoreUpdate (VNum 1) (VNum 0)) gm_joined "ABCDEF"
              {| id := "ABCDEF"; host := "socketA"; hostName := "Alice";
                 guest := Some "socketB"%string;
                 guestName := Some "Bob"%string; ball := VNull;
                 leftScore := VNum 0; rightScore := VNum 0;
                 leftPaddle_y := VNum 0; rightPaddle_y := VNum 0;
                 remainingTime := VNum 120; lastActivity := 7;
                 status := playing |})
    as (game' & Hg' & _ & _ & _ & _ & _ & (_ & _ & _ & _ & Hact) & _).
  - vm_compute. reflexivity.
  - discriminate.
  - vm_compute. reflexivity.
  - reflexivity.
  - reflexivity.
  - split; [vm_compute; reflexivity | exact Hact].
Defined.

(** X5.  A [paddleMove] of a connection with a current game sets
    [lastActivity] to [now] and is routed by the sender's seat: from the
    host it is stored as the left paddle and emitted to the guest slot (to
    [null] while nobody has joined); from the guest it is stored as the
    right paddle and emitted to the host; from a connection that has
    neither seat nothing is stored but the time and nothing is emitted. *)
Theorem X5_paddleMove_routed_by_seat socketId now y gm gameId game :
  playerSockets gm !! socketId = Some gameId ->
  gameId <> ""%string ->
  activeGames gm !! gameId = Some game ->
  let r := on socketId now (PaddleMove y) gm in
  (host game = socketId ->
   activeGames r.1 !! gameId
   = Some (set_leftPaddle_y y (set_lastActivity now game)) /\
   r.2 = [Emit (guest game) "paddleMove" [VObj (FCons "y" y FNil)]]) /\
  (host game <> socketId -> guest game = Some socketId ->
   activeGames r.1 !! gameId
   = Some (set_rightPaddle_y y (set_lastActivity now game)) /\
   r.2 = [Emit (Some (host game)) "paddleMove" [VObj (FCons "y" y FNil)]]) /\
  (host game <> socketId -> guest game <> Some socketId ->
   activeGames r.1 !! gameId = Some (set_lastActivity now game) /\
   r.2 = []) /\
  (forall k, k <> gameId -> activeGames r.1 !! k = activeGames gm !! k) /\
  playerSockets r.1 = playerSockets gm.
Proof.
  intros Hp Hne Hg. cbn zeta.
  rewrite (onPaddleMove_here socketId now gm gameId game Hp Hne Hg y).
  destruct (String.eqb socketId (host game)) eqn:He.
  - apply String.eqb_eq in He.
    repeat split; try congruence; try apply lookup_insert_eq.
    intros k Hk. apply lookup_insert_ne. congruence.
  - apply String.eqb_neq in He.
    case_bool_decide as Hgu; simpl;
      repeat split; try congruence; try apply lookup_insert_eq;
      intros k Hk; apply lookup_insert_ne; congruence.
Qed.

Lemma X5_paddleMove_routed_by_seat_witness :
  (on "socketA" 3 (PaddleMove (VNum 40)) gm_created).2
  = [Emit None "paddleMove" [VObj (FCons "y" (VNum 40) FNil)]] /\
  (on "socketB" 9 (PaddleMove (VNum 40)) gm_joined).2
  = [Emit (Some "socketA"%string) "paddleMove"
       [VObj (FCons "y" (VNum 40) FNil)]].
Proof.
  split.
  - pose proof (X5_paddleMove_routed_by_seat "socketA" 3 (VNum 40) gm_created
                  "ABCDEF"
                  {| id := "ABCDEF"; host := "socketA"; hostName := "Alice";
                     guest := None; guestName := None; ball := VNull;
                     leftScore := VNum 0; rightScore := VNum 0;
                     leftPaddle_y := VNum 0; rightPaddle_y := VNum 0;
                     remainingTime := VNum 120; lastActivity := 0;
                     status := waiting |}) as H.
    cbn zeta in H. destruct H as ((_ & Hact) & _).
    + vm_compute. reflexivity.
    + discriminate.
    + vm_compute. reflexivity.
    + reflexivity.
    + exact Hact.
  - pose proof (X5_paddleMove_routed_by_seat "socketB" 9 (VNum 40) gm_joined
                  "ABCDEF"
                  {| id := "ABCDEF"; host := "socketA"; hostName := "Alice";
                     guest := Some "socketB"%string;
                     guestName := Some "Bob"%string; ball := VNull;
                     leftScore := VNum 0; rightScore := VNum 0;
                     leftPaddle_y := VNum 0; rightPaddle_y := VNum 0;
                     remainingTime := VNum 120; lastActivity := 7;
                     status := playing |}) as H.
    cbn zeta in H. destruct H as (_ & Hguest & _).
    + vm_compute. reflexivity.
    + discriminate.
    + vm_compute. reflexivity.
    + destruct Hguest as (_ & Hact).
      * simpl. discriminate.
      * reflexivity.
      * exact Hact.
Defined.

Section RelayFrame.

Lemma relay_frame_refl socketId now gm : relay_frame socketId now gm gm.
Proof.
  split; [reflexivity|]. split; [tauto|].
  intros k g g' Hg Hg'. rewrite Hg in Hg'. injection Hg' as <-.
  unfold same_identity, same_seats. auto 10.
Qed.

Lemma relay_frame_store socketId now gm gameId game game' :
  currentGame socketId gm = Some (gameId, game) ->
  same_identity game game' -> same_seats game game' ->
  lastActivity game' = now ->
  relay_frame socketId now gm (storeGame gameId game' gm).
Proof.
  intros Hc Hi Hs Hl.
  pose proof Hc as Hc'. apply currentGame_Some in Hc' as (_ & _ & Hg).
  split; [reflexivity|]. split.
  - intros k. simpl. rewrite lookup_insert. case_decide as Hk.
    + subst k. rewrite Hg. split; discriminate.
    + tauto.
  - intros k g g'. simpl. rewrite lookup_insert. case_decide as Hk.
    + subst k. rewrite Hg. intros [= <-] [= <-]. auto.
    + intros Hk1 Hk2. rewrite Hk1 in Hk2. injection Hk2 as <-.
      unfold same_identity, same_seats. auto 10.
Qed.

End RelayFrame.

(** X6.  A pong, a paddle move or a host update, whoever sends it, leaves
    the membership index and the set of game ids as they are, and changes no
    game but the sender's current one; in that game the id, the host, the
    host name, the guest, the guest name and the status stay, and if
    anything changed [lastActivity] is [now]. *)
Theorem X6_relay_changes_only_the_senders_game socketId now ev gm :
  relayEvent ev = true ->
  relay_frame socketId now gm (on socketId now ev gm).1.
Proof.
  intros Hev.
  destruct ev; try discriminate Hev; simpl;
    unfold onPong, onPaddleMove, onBallUpdate, onScoreUpdate, onTimerUpdate;
    destruct (currentGame socketId gm) as [[gameId game]|] eqn:Hc;
    try apply relay_frame_refl;
    repeat (match goal with
            | |- context [if ?b then _ else _] => destruct b
            end);
    simpl;
    try apply relay_frame_refl;
    (eapply relay_frame_store; [exact Hc| | |]);
    unfold same_identity, same_seats; simpl; auto.
Qed.

Lemma X6_relay_changes_only_the_senders_game_witness :
  let gm' := (on "socketA" 9 (BallUpdate (VNum 5)) gm_joined).1 in
  playerSockets gm' = playerSockets gm_joined /\
  guest <$> activeGames gm' !! "ABCDEF"%string = Some (Some "socketB"%string).
Proof.
  cbn zeta.
  destruct (X6_relay_changes_only_the_senders_game
              "socketA" 9 (BallUpdate (VNum 5)) gm_joined eq_refl)
    as (Hp & _ & _).
  split; [exact Hp | vm_compute; reflexivity].
Defined.

(** X7.  The heartbeat keeps a game alive: after a pong at time [now] of a
    connection whose current game is stored under [gameId], a sweep run no
    more than five minutes later leaves that game in the table, changed in
    nothing but [lastActivity]. *)
Theorem X7_pong_protects_from_sweep socketId now now' gm gameId game :
  playerSockets gm !! socketId = Some gameId ->
  gameId <> ""%string ->
  activeGames gm !! gameId = Some game ->
  now' - now <= inactiveThreshold ->
  (on socketId now Pong gm).2 = [] /\
  activeGames (cleanupInactiveGames now' (on socketId now Pong gm).1) !! gameId
  = Some (set_lastActivity now game).
Proof.
  intros Hp Hne Hg Hle.
  rewrite (onPong_here socketId now gm gameId game Hp Hne Hg).
  cbn [fst snd]. split; [reflexivity|].
  rewrite cleanupInactiveGames_lookup, storeGame_lookup.
  unfold inactive. simpl.
  destruct (now' - now >? inactiveThreshold) eqn:Hgt; [|reflexivity].
  rewrite Z.gtb_ltb, Z.ltb_lt in Hgt. lia.
Qed.

Lemma X7_pong_protects_from_sweep_witness :
  lastActivity
    <$> activeGames
          (cleanupInactiveGames 400000 (on "socketB" 100000 Pong gm_joined).1)
          !! "ABCDEF"%string
  = Some 100000 /\
  activeGames (cleanupInactiveGames 400000 gm_joined) !! "ABCDEF"%string = None.
Proof.
  split; [|vm_compute; reflexivity].
  destruct (X7_pong_protects_from_sweep "socketB" 100000 400000 gm_joined
              "ABCDEF"
              {| id := "ABCDEF"; host := "socketA"; hostName := "Alice";
                 guest := Some "socketB"%string;
                 guestName := Some "Bob"%string; ball := VNull;
                 leftScore := VNum 0; rightScore := VNum 0;
                 leftPaddle_y := VNum 0; rightPaddle_y := VNum 0;
                 remainingTime := VNum 120; lastActivity := 7;
                 status := playing |}) as [_ H].
  - vm_compute. reflexivity.
  - discriminate.
  - vm_compute. reflexivity.
  - vm_compute. discriminate.
  - rewrite H. reflexivity.
Defined.

(** ** The host ends the game *)

Section HostEnds.

Lemma notify_guest gameId game (e : string) :
  game_ok gameId game ->
  (if truthy_opt (guest game) then [Emit (guest game) e []] else [])
  = match guest game with
    | Some g => [Emit (Some g) e []]
    | None => []
    end.
Proof.
  intros [_ Hg _ _]. destruct (guest game) as [g|]; simpl; [|reflexivity].
  assert (Ht : truthy g = true) by (apply truthy_true; congruence).
  rewrite Ht. reflexivity.
Qed.

Lemma removeGame_participants gameId game gm c :
  activeGames gm !! gameId = Some game ->
  game_ok gameId game ->
  participant c game ->
  playerSockets (removeGame gameId gm) !! c = None.
Proof.
  intros Hg Hok Hc.
  rewrite (removeGame_playerSockets _ _ _ _ Hg (ok_guest _ _ Hok)).
  unfold participant in Hc.
  rewrite bool_decide_eq_true_2 by exact Hc. reflexivity.
Qed.

End HostEnds.

(** X8.  [cancelGame] goes by the id in the message, not by the sender's
    membership entry.  Sent by the host of the game stored under that id, it
    removes the game and the membership entries of its host and guest, and
    tells the guest, if there is one, [gameCancelled]; for an unknown id or
    a game of another host it changes nothing and emits nothing. *)
Theorem X8_cancelGame_host_only socketId now gameId gm :
  reachable gm ->
  let r := on socketId now (CancelGame gameId) gm in
  (forall game,
     activeGames gm !! gameId = Some game -> host game = socketId ->
     r.1 = removeGame gameId gm /\
     activeGames r.1 !! gameId = None /\
     (forall c, participant c game -> playerSockets r.1 !! c = None) /\
     r.2 = match guest game with
           | Some g => [Emit (Some g) "gameCancelled" []]
           | None => []
           end) /\
  (activeGames gm !! gameId = None \/
   (exists game, activeGames gm !! gameId = Some game /\ host game <> socketId) ->
   r = (gm, [])).
Proof.
  intros Hreach. pose proof (table_ok_reachable gm Hreach) as Hok.
  cbn zeta. simpl. unfold onCancelGame. split.
  - intros game Hg Hh. rewrite Hg, Hh, String.eqb_refl. simpl.
    split; [reflexivity|].
    split; [apply removeGame_lookup|].
    split.
    + intros c Hc. eapply removeGame_participants; eauto.
    + apply (notify_guest gameId), Hok, Hg.
  - intros [Hg | (game & Hg & Hh)]; rewrite Hg; [reflexivity|].
    apply String.eqb_neq in Hh. rewrite Hh. reflexivity.
Qed.

Lemma X8_cancelGame_host_only_witness :
  on "socketB" 9 (CancelGame "ABCDEF") gm_joined = (gm_joined, []) /\
  (on "socketA" 9 (CancelGame "ABCDEF") gm_joined).2
  = [Emit (Some "socketB"%string) "gameCancelled" []] /\
  playerSockets (on "socketA" 9 (CancelGame "ABCDEF") gm_joined).1
    !! "socketB"%string = None.
Proof.
  pose proof (X8_cancelGame_host_only "socketB" 9 "ABCDEF" gm_joined
                reachable_gm_joined) as [_ Hother].
  pose proof (X8_cancelGame_host_only "socketA" 9 "ABCDEF" gm_joined
                reachable_gm_joined) as [Hhost _].
  cbn zeta in *.
  split.
  - apply Hother. right. eexists. split; [vm_compute; reflexivity|].
    simpl. discriminate.
  - destruct (Hhost {| id := "ABCDEF"; host := "socketA"; hostName := "Alice";
                       guest := Some "socketB"%string;
                       guestName := Some "Bob"%string; ball := VNull;
                       leftScore := VNum 0; rightScore := VNum 0;
                       leftPaddle_y := VNum 0; rightPaddle_y := VNum 0;
                       remainingTime := VNum 120; lastActivity := 7;
                       status := playing |})
      as (_ & _ & Hmem & Hact).
    + vm_compute. reflexivity.
    + reflexivity.
    + split; [exact Hact|]. apply Hmem. right. reflexivity.
Defined.

(** X9.  [gameEnd] goes by the sender's membership entry.  Sent by the host
    of its current game, it emits [gameEnd] once to the room named by the
    game id and removes the game with the membership entries of host and
    guest, every other game staying as it was; sent by anyone else it
    changes nothing and emits nothing. *)
Theorem X9_gameEnd_by_host socketId now gm gameId game :
  reachable gm ->
  playerSockets gm !! socketId = Some gameId ->
  gameId <> ""%string ->
  activeGames gm !! gameId = Some game ->
  let r := on socketId now GameEnd gm in
  (host game = socketId ->
   r.2 = [Emit (Some gameId) "gameEnd" []] /\
   activeGames r.1 !! gameId = None /\
   (forall c, participant c game -> playerSockets r.1 !! c = None) /\
   (forall k, k <> gameId -> activeGames r.1 !! k = activeGames gm !! k)) /\
  (host game <> socketId -> r = (gm, [])).
Proof.
  intros Hreach Hp Hne Hg. pose proof (table_ok_reachable gm Hreach) as Hok.
  cbn zeta. simpl. unfold onGameEnd.
  rewrite (currentGame_here socketId gm gameId game Hp Hne Hg). split.
  - intros Hh. rewrite Hh, String.eqb_refl. simpl.
    split; [reflexivity|].
    split; [apply removeGame_lookup|].
    split.
    + intros c Hc. eapply removeGame_participants; eauto.
    + intros k Hk. apply removeGame_lookup_ne, Hk.
  - intros Hh. assert (He : String.eqb socketId (host game) = false)
      by (apply String.eqb_neq; congruence).
    rewrite He. reflexivity.
Qed.

Lemma X9_gameEnd_by_host_witness :
  on "socketB" 9 GameEnd gm_joined = (gm_joined, []) /\
  (on "socketA" 9 GameEnd gm_joined).2 = [Emit (Some "ABCDEF"%string) "gameEnd" []] /\
  activeGames (on "socketA" 9 GameEnd gm_joined).1 !! "ABCDEF"%string = None.
Proof.
  pose (g := {| id := "ABCDEF"; host := "socketA"; hostName := "Alice";
                guest := Some "socketB"%string; guestName := Some "Bob"%string;
                ball := VNull; leftScore := VNum 0; rightScore := VNum 0;
                leftPaddle_y := VNum 0; rightPaddle_y := VNum 0;
                remainingTime := VNum 120; lastActivity := 7;
                status := playing |}).
  split.
  - pose proof (X9_gameEnd_by_host "socketB" 9 gm_joined "ABCDEF" g
                  reachable_gm_joined) as H.
    cbn zeta in H. destruct H as [_ H].
    + vm_compute. reflexivity.
    + discriminate.
    + vm_compute. reflexivity.
    + apply H. simpl. discriminate.
  - pose proof (X9_gameEnd_by_host "socketA" 9 gm_joined "ABCDEF" g
                  reachable_gm_joined) as H.
    cbn zeta in H. destruct H as [H _].
    + vm_compute. reflexivity.
    + discriminate.
    + vm_compute. reflexivity.
    + destruct (H eq_refl) as (Hact & Hgone & _). split; assumption.
Defined.

(** X10.  When the host of its current game disconnects, the game is removed
    with the membership entries of host and guest, the guest, if there is
    one, is told [hostDisconnected], and every other game stays as it was.
    When a connection that has neither seat in the game its entry names
    disconnects, only its membership entry is deleted. *)
Theorem X10_host_disconnect socketId now gm gameId game :
  reachable gm ->
  playerSockets gm !! socketId = Some gameId ->
  gameId <> ""%string ->
  activeGames gm !! gameId = Some game ->
  let r := on socketId now Disconnect gm in
  (host game = socketId ->
   r.2 = match guest game with
         | Some g => [Emit (Some g) "hostDisconnected" []]
         | None => []
         end /\
   activeGames r.1 !! gameId = None /\
   (forall c, participant c game -> playerSockets r.1 !! c = None) /\
   (forall k, k <> gameId -> activeGames r.1 !! k = activeGames gm !! k)) /\
  (host game <> socketId -> guest game <> Some socketId ->
   r = (forgetSocket socketId gm, [])).
Proof.
  intros Hreach Hp Hne Hg. pose proof (table_ok_reachable gm Hreach) as Hok.
  cbn zeta. simpl. unfold onDisconnect.
  rewrite (currentGame_here socketId gm gameId game Hp Hne Hg). split.
  - intros Hh. rewrite Hh, String.eqb_refl. simpl.
    split; [apply (notify_guest gameId), Hok, Hg|].
    split; [apply removeGame_lookup|].
    split.
    + intros c Hc. rewrite lookup_delete. case_decide; [reflexivity|].
      eapply removeGame_participants; eauto.
    + intros k Hk. apply removeGame_lookup_ne, Hk.
  - intros Hh Hgu.
    assert (He : String.eqb socketId (host game) = false)
      by (apply String.eqb_neq; congruence).
    rewrite He, bool_decide_eq_false_2 by exact Hgu. reflexivity.
Qed.

Lemma X10_host_disconnect_witness :
  (on "socketA" 9 Disconnect gm_joined).2
  = [Emit (Some "socketB"%string) "hostDisconnected" []] /\
  activeGames (on "socketA" 9 Disconnect gm_joined).1 !! "ABCDEF"%string = None /\
  playerSockets (on "socketA" 9 Disconnect gm_joined).1 !! "socketB"%string
  = None.
Proof.
  pose proof (X10_host_disconnect "socketA" 9 gm_joined "ABCDEF"
                {| id := "ABCDEF"; host := "socketA"; hostName := "Alice";
                   guest := Some "socketB"%string;
                   guestName := Some "Bob"%string; ball := VNull;
                   leftScore := VNum 0; rightScore := VNum 0;
                   leftPaddle_y := VNum 0; rightPaddle_y := VNum 0;
                   remainingTime := VNum 120; lastActivity := 7;
                   status := playing |} reachable_gm_joined) as H.
  cbn zeta in H. destruct H as [H _].
  - vm_compute. reflexivity.
  - discriminate.
  - vm_compute. reflexivity.
  - destruct (H eq_refl) as (Hact & Hgone & Hmem & _).
    split; [exact Hact|]. split; [exact Hgone|].
    apply Hmem. right. reflexivity.
Defined.

(** ** Games are made by createGame only *)

Section NoNewGame.

Lemma same_identity_refl g : same_identity g g.
Proof. unfold same_identity. auto. Qed.

Lemma no_new_game_refl gm : no_new_game gm gm.
Proof. intros k g' H. exists g'. split; [exact H | apply same_identity_refl]. Qed.

Lemma no_new_game_activeGames gm gm1 gm2 :
  activeGames gm2 = activeGames gm1 -> no_new_game gm gm1 -> no_new_game gm gm2.
Proof. intros Heq H k g'. rewrite Heq. apply H. Qed.

Lemma no_new_game_insert gm gm' gameId game game' :
  activeGames gm !! gameId = Some game ->
  same_identity game game' ->
  activeGames gm' = <[gameId := game']> (activeGames gm) ->
  no_new_game gm gm'.
Proof.
  intros Hg Hi Heq k g'. rewrite Heq, lookup_insert.
  case_decide as Hk.
  - subst k. intros [= <-]. eauto.
  - intros H. exists g'. split; [exact H | apply same_identity_refl].
Qed.

Lemma no_new_game_removeGame gm gameId : no_new_game gm (removeGame gameId gm).
Proof.
  intros k g'. rewrite activeGames_removeGame, lookup_delete.
  case_decide as Hk; [discriminate|].
  intros Hg. exists g'. split; [exact Hg | apply same_identity_refl].
Qed.

Lemma no_new_game_joinGame gm now gameId guestId guestName0 :
  no_new_game gm (joinGame now gameId guestId guestName0 gm).2.
Proof.
  unfold joinGame.
  destruct (activeGames gm !! gameId) as [game|] eqn:Hg;
    [|apply no_new_game_refl].
  destruct (truthy_opt (guest game)); [apply no_new_game_refl|].
  eapply no_new_game_insert; [exact Hg| |reflexivity].
  unfold same_identity. simpl. auto.
Qed.

Lemma no_new_game_cleanup gm now : no_new_game gm (cleanupInactiveGames now gm).
Proof.
  intros k g'. rewrite cleanupInactiveGames_lookup.
  destruct (activeGames gm !! k) as [g|]; [|discriminate].
  destruct (inactive now g); [discriminate|].
  intros [= <-]. exists g. split; [reflexivity | apply same_identity_refl].
Qed.

Lemma no_new_game_on gm socketId now ev :
  isCreateGame ev = false -> no_new_game gm (on socketId now ev gm).1.
Proof.
  intros Hev.
  destruct ev; try discriminate Hev; simpl;
    unfold onPong, onJoinGame, onCancelGame, onPaddleMove, onBallUpdate,
      onScoreUpdate, onTimerUpdate, onGameEnd, onRequestGameList, onDisconnect.
  all: try (destruct (currentGame socketId gm) as [[gid game]|] eqn:Hc;
            [apply currentGame_Some in Hc as (Hp & Hgid & Hg)
            | apply no_new_game_refl]).
  - eapply no_new_game_insert; [exact Hg| |reflexivity].
    unfold same_identity. simpl. auto.
  - pose proof (no_new_game_joinGame gm now gameId socketId playerName) as Hj.
    destruct (joinGame now gameId socketId playerName gm) as [[g|] gm'];
      exact Hj.
  - destruct (activeGames gm !! gameId) as [game|]; [|apply no_new_game_refl].
    destruct (String.eqb (host game) socketId); simpl;
      [apply no_new_game_removeGame | apply no_new_game_refl].
  - simpl. destruct (String.eqb socketId (host game)); simpl;
      [|destruct (bool_decide (guest game = Some socketId)); simpl];
      (eapply no_new_game_insert; [exact Hg| |reflexivity]);
      unfold same_identity; simpl; auto.
  - destruct (String.eqb socketId (host game)); simpl;
      [|apply no_new_game_refl].
    eapply no_new_game_insert; [exact Hg| |reflexivity].
    unfold same_identity. simpl. auto.
  - destruct (String.eqb socketId (host game)); simpl;
      [|apply no_new_game_refl].
    eapply no_new_game_insert; [exact Hg| |reflexivity].
    unfold same_identity. simpl. auto.
  - destruct (String.eqb socketId (host game)); simpl;
      [|apply no_new_game_refl].
    eapply no_new_game_insert; [exact Hg| |reflexivity].
    unfold same_identity. simpl. auto.
  - destruct (String.eqb socketId (host game)); simpl;
      [apply no_new_game_removeGame | apply no_new_game_refl].
  - apply no_new_game_refl.
  - destruct (String.eqb socketId (host game)); simpl.
    + eapply no_new_game_activeGames; [|apply no_new_game_removeGame].
      reflexivity.
    + destruct (bool_decide (guest game = Some socketId)); simpl.
      * eapply no_new_game_insert; [exact Hg| |reflexivity].
        unfold same_identity. simpl. auto.
      * eapply no_new_game_activeGames; [|apply no_new_game_refl].
        reflexivity.
Qed.

End NoNewGame.

(** X11.  Only [createGame] puts a game into the table or decides who hosts
    it: after any other event of any connection, after [joinGame] or
    [removeGame] called directly, and after the sweep, every game of the
    table was in the table before under the same key, with the same id,
    host and host name. *)
Theorem X11_only_createGame_adds_games gm :
  (forall socketId now ev,
     isCreateGame ev = false -> no_new_game gm (on socketId now ev gm).1) /\
  (forall now gameId guestId guestName0,
     no_new_game gm (joinGame now gameId guestId guestName0 gm).2) /\
  (forall gameId, no_new_game gm (removeGame gameId gm)) /\
  (forall now, no_new_game gm (cleanupInactiveGames now gm)).
Proof.
  split; [intros; apply no_new_game_on; assumption|].
  split; [intros; apply no_new_game_joinGame|].
  split; [intros; apply no_new_game_removeGame|].
  intros; apply no_new_game_cleanup.
Qed.

(** ** The list of waiting games has no repeated id *)

Section ListingIds.

Lemma waiting_ids_NoDup (entries : list (string * Game)) :
  NoDup (entries.*1) ->
  (forall k g, (k, g) ∈ entries -> id g = k) ->
  NoDup (id <$> filter (fun game => status game = waiting) (entries.*2)).
Proof.
  induction entries as [|[k g] entries IH]; intros Hnd Hid; simpl.
  - constructor.
  - simpl in Hnd. apply NoDup_cons in Hnd as [Hk Hnd].
    assert (IH' : NoDup (id <$> filter (fun game => status game = waiting)
                                  (entries.*2))).
    { apply IH; [exact Hnd|]. intros k' g' Hin. apply Hid. right. exact Hin. }
    rewrite filter_cons. case_decide as Hs; [|exact IH'].
    simpl. apply NoDup_cons. split; [|exact IH'].
    intros Hin. apply list_elem_of_fmap in Hin as (g2 & Hg2 & Hin).
    apply list_elem_of_filter in Hin as [_ Hin].
    apply list_elem_of_fmap in Hin as ([k2 g2'] & -> & Hin). simpl in Hg2.
    apply Hk. apply list_elem_of_fmap. exists (k2, g2'). split; [|exact Hin].
    simpl. rewrite <- (Hid k g (list_elem_of_here _ _)).
    rewrite <- (Hid k2 g2'); [exact Hg2 | right; exact Hin].
Qed.

Lemma getAvailableGames_ids_fmap gm :
  Listing.id <$> getAvailableGames gm
  = id <$> filter (fun game => status game = waiting)
             ((map_to_list (activeGames gm)).*2).
Proof.
  unfold getAvailableGames. rewrite <- list_fmap_compose. reflexivity.
Qed.

End ListingIds.

(** X12.  On a running server the list of waiting games names no id twice,
    and it is never longer than the table. *)
Theorem X12_getAvailableGames_distinct_ids gm :
  reachable gm ->
  NoDup (Listing.id <$> getAvailableGames gm) /\
  (length (getAvailableGames gm) <= size (activeGames gm))%nat.
Proof.
  intros Hreach. pose proof (table_ok_reachable gm Hreach) as Hok. split.
  - rewrite getAvailableGames_ids_fmap. apply waiting_ids_NoDup.
    + apply NoDup_fst_map_to_list.
    + intros k g Hin. apply elem_of_map_to_list in Hin.
      apply (ok_id _ _ (Hok _ _ Hin)).
  - unfold getAvailableGames. rewrite length_fmap.
    etransitivity; [apply length_filter|].
    rewrite length_fmap, length_map_to_list. reflexivity.
Qed.

Lemma X12_getAvailableGames_distinct_ids_witness :
  NoDup (Listing.id <$> getAvailableGames gm_created) /\
  (length (getAvailableGames gm_created) <= size (activeGames gm_created))%nat.
Proof.
  apply X12_getAvailableGames_distinct_ids. exact reachable_gm_created.
Defined.

(** ** What the sweep does to the membership index *)

Section CleanupMembership.

Lemma removeGame_playerSockets_None gameId gm c :
  playerSockets gm !! c = None ->
  playerSockets (removeGame gameId gm) !! c = None.
Proof.
  intros H. unfold removeGame.
  destruct (activeGames gm !! gameId) as [game|]; simpl; [|exact H].
  destruct (guest game) as [g|]; [destruct (truthy g)|];
    rewrite ?lookup_delete; repeat case_decide; auto.
Qed.

Lemma foldl_cleanup_playerSockets_None now entries gm c :
  playerSockets gm !! c = None ->
  playerSockets (foldl (cleanupEntry now) gm entries) !! c = None.
Proof.
  revert gm. induction entries as [|e entries IH]; intros gm H; simpl.
  - exact H.
  - apply IH. unfold cleanupEntry.
    destruct (now - lastActivity e.2 >? inactiveThreshold); [|exact H].
    apply removeGame_playerSockets_None, H.
Qed.

(** The entries the loop still has to visit are games of the table. *)
Lemma cleanupEntry_keeps_rest now gm k0 g0 entries :
  NoDup (((k0, g0) :: entries).*1) ->
  (forall k g, (k, g) ∈ entries -> activeGames gm !! k = Some g) ->
  forall k g, (k, g) ∈ entries ->
              activeGames (cleanupEntry now gm (k0, g0)) !! k = Some g.
Proof.
  intros Hnd Hin k g Hkg. unfold cleanupEntry. simpl.
  destruct (now - lastActivity g0 >? inactiveThreshold); [|apply Hin, Hkg].
  rewrite removeGame_lookup_ne; [apply Hin, Hkg|].
  intros ->. simpl in Hnd. apply NoDup_cons in Hnd as [Hk0 _].
  apply Hk0. apply list_elem_of_fmap. exists (k0, g). auto.
Qed.

Lemma foldl_cleanup_playerSockets_swept now entries gm c k g :
  NoDup (entries.*1) ->
  (forall k g, (k, g) ∈ entries -> activeGames gm !! k = Some g) ->
  (forall k g, (k, g) ∈ entries -> guest g <> Some ""%string) ->
  (k, g) ∈ entries -> inactive now g = true -> participant c g ->
  playerSockets (foldl (cleanupEntry now) gm entries) !! c = None.
Proof.
  revert gm. induction entries as [|[k0 g0] entries IH];
    intros gm Hnd Hin Hgu Hkg Hi Hc.
  - inversion Hkg.
  - simpl. apply elem_of_cons in Hkg as [Heq | Hkg].
    + injection Heq as <- <-.
      apply foldl_cleanup_playerSockets_None.
      unfold cleanupEntry. simpl. unfold inactive in Hi. rewrite Hi.
      rewrite (removeGame_playerSockets k g gm c);
        [|apply Hin; left|apply (Hgu k g); left].
      unfold participant in Hc.
      rewrite bool_decide_eq_true_2 by exact Hc. reflexivity.
    + apply IH; auto.
      * simpl in Hnd. apply NoDup_cons in Hnd as [_ Hnd]. exact Hnd.
      * apply (cleanupEntry_keeps_rest now gm k0 g0 entries Hnd).
        intros k' g' H'. apply Hin. right. exact H'.
      * intros k' g' H'. apply (Hgu k' g'). right. exact H'.
Qed.

Lemma foldl_cleanup_playerSockets_kept now entries gm c :
  NoDup (entries.*1) ->
  (forall k g, (k, g) ∈ entries -> activeGames gm !! k = Some g) ->
  (forall k g, (k, g) ∈ entries -> guest g <> Some ""%string) ->
  (forall k g, (k, g) ∈ entries -> participant c g -> inactive now g = false) ->
  playerSockets (foldl (cleanupEntry now) gm entries) !! c
  = playerSockets gm !! c.
Proof.
  revert gm. induction entries as [|[k0 g0] entries IH];
    intros gm Hnd Hin Hgu Hact.
  - reflexivity.
  - simpl. rewrite IH.
    + unfold cleanupEntry. simpl.
      destruct (now - lastActivity g0 >? inactiveThreshold) eqn:Hi;
        [|reflexivity].
      rewrite (removeGame_playerSockets k0 g0 gm c);
        [|apply Hin; left|apply (Hgu k0 g0); left].
      case_bool_decide as Hc; [|reflexivity].
      specialize (Hact k0 g0 (list_elem_of_here _ _) Hc).
      unfold inactive in Hact. congruence.
    + simpl in Hnd. apply NoDup_cons in Hnd as [_ Hnd]. exact Hnd.
    + apply (cleanupEntry_keeps_rest now gm k0 g0 entries Hnd).
      intros k' g' H'. apply Hin. right. exact H'.
    + intros k' g' H'. apply (Hgu k' g'). right. exact H'.
    + intros k' g' H'. apply (Hact k' g'). right. exact H'.
Qed.

Lemma foldl_cleanup_noop now entries gm :
  (forall e, e ∈ entries -> inactive now e.2 = false) ->
  foldl (cleanupEntry now) gm entries = gm.
Proof.
  revert gm. induction entries as [|e entries IH]; intros gm H; simpl.
  - reflexivity.
  - assert (He : cleanupEntry now gm e = gm).
    { unfold cleanupEntry. specialize (H e (list_elem_of_here _ _)).
      unfold inactive in H. rewrite H. reflexivity. }
    rewrite He. apply IH. intros e' Hin. apply H. right. exact Hin.
Qed.

End CleanupMembership.

(** X13.  On a running server the sweep deletes the membership entries of
    the host and of the guest of every game it removes, and keeps the entry
    of every connection that has no seat in a removed game. *)
Theorem X13_cleanup_membership now gm c :
  reachable gm ->
  (forall gameId game,
     activeGames gm !! gameId = Some game ->
     lastActivity game < now - inactiveThreshold ->
     participant c game ->
     playerSockets (cleanupInactiveGames now gm) !! c = None) /\
  ((forall gameId game,
      activeGames gm !! gameId = Some game ->
      participant c game ->
      ~ lastActivity game < now - inactiveThreshold) ->
   playerSockets (cleanupInactiveGames now gm) !! c = playerSockets gm !! c).
Proof.
  intros Hreach. pose proof (table_ok_reachable gm Hreach) as Hok.
  assert (Hin : forall k g, (k, g) ∈ map_to_list (activeGames gm) ->
                            activeGames gm !! k = Some g)
    by (intros k g; apply elem_of_map_to_list).
  assert (Hgu : forall k g, (k, g) ∈ map_to_list (activeGames gm) ->
                            guest g <> Some ""%string)
    by (intros k g H; apply (ok_guest k g), Hok, Hin, H).
  unfold cleanupInactiveGames. split.
  - intros gameId game Hg Hold Hc.
    apply (foldl_cleanup_playerSockets_swept now _ gm c gameId game);
      [apply NoDup_fst_map_to_list | exact Hin | exact Hgu
      | apply elem_of_map_to_list, Hg | apply inactive_true, Hold | exact Hc].
  - intros Hact.
    apply foldl_cleanup_playerSockets_kept;
      [apply NoDup_fst_map_to_list | exact Hin | exact Hgu |].
    intros k g Hkg Hc. specialize (Hact k g (Hin k g Hkg) Hc).
    rewrite <- inactive_true in Hact.
    destruct (inactive now g); [contradiction Hact|]; reflexivity.
Qed.

Lemma X13_cleanup_membership_witness :
  playerSockets (cleanupInactiveGames 400000 gm_joined) !! "socketB"%string
  = None.
Proof.
  destruct (X13_cleanup_membership 400000 gm_joined "socketB"
              reachable_gm_joined) as [H _].
  apply (H "ABCDEF"%string
           {| id := "ABCDEF"; host := "socketA"; hostName := "Alice";
              guest := Some "socketB"%string; guestName := Some "Bob"%string;
              ball := VNull; leftScore := VNum 0; rightScore := VNum 0;
              leftPaddle_y := VNum 0; rightPaddle_y := VNum 0;
              remainingTime := VNum 120; lastActivity := 7;
              status := playing |}).
  - vm_compute. reflexivity.
  - vm_compute. reflexivity.
  - right. reflexivity.
Defined.

(** X14.  A sweep that finds no game older than the threshold changes
    nothing, membership index included; so a second sweep at the same time
    changes nothing after the first. *)
Theorem X14_cleanup_nothing_to_do now gm :
  ((forall gameId game,
      activeGames gm !! gameId = Some game ->
      ~ lastActivity game < now - inactiveThreshold) ->
   cleanupInactiveGames now gm = gm) /\
  cleanupInactiveGames now (cleanupInactiveGames now gm)
  = cleanupInactiveGames now gm.
Proof.
  assert (Hnoop : forall gm0,
            (forall gameId game,
               activeGames gm0 !! gameId = Some game ->
               ~ lastActivity game < now - inactiveThreshold) ->
            cleanupInactiveGames now gm0 = gm0).
  { intros gm0 H. apply foldl_cleanup_noop. intros [k g] Hin.
    apply elem_of_map_to_list in Hin. specialize (H k g Hin).
    rewrite <- inactive_true in H. simpl.
    destruct (inactive now g); [contradiction H|]; reflexivity. }
  split; [apply Hnoop|].
  apply Hnoop. intros gameId game Hg.
  rewrite cleanupInactiveGames_lookup in Hg.
  destruct (activeGames gm !! gameId) as [g|]; [|discriminate].
  destruct (inactive now g) eqn:Hi; [discriminate|].
  injection Hg as <-. rewrite <- inactive_true. congruence.
Qed.

(** ** Removing a game whose host has moved on *)

Section Orphans.

Lemma removeGame_host gameId game gm :
  activeGames gm !! gameId = Some game ->
  playerSockets (removeGame gameId gm) !! host game = None.
Proof.
  intros Hg. unfold removeGame. rewrite Hg. simpl.
  destruct (guest game) as [g|]; [destruct (truthy g)|];
    rewrite ?lookup_delete; repeat case_decide; congruence.
Qed.

End Orphans.

(** X15.  [removeGame] deletes the membership entry of the removed game's
    host without looking at the id it holds.  If that connection hosts a
    second game, the second game stays in the table but its host has lost
    its entry: from then on its pongs, paddle moves, host updates, [gameEnd]
    and disconnect are all ignored. *)
Theorem X15_removeGame_unbinds_host_of_other_game
    gm gameId game otherId other socketId :
  activeGames gm !! gameId = Some game ->
  host game = socketId ->
  activeGames gm !! otherId = Some other ->
  host other = socketId ->
  otherId <> gameId ->
  let gm' := removeGame gameId gm in
  activeGames gm' !! otherId = Some other /\
  playerSockets gm' !! socketId = None /\
  (forall now ev,
     membershipEvent ev = true -> on socketId now ev gm' = (gm', [])).
Proof.
  intros Hg Hh Ho Hoh Hne. cbn zeta.
  assert (Hp : playerSockets (removeGame gameId gm) !! socketId = None)
    by (rewrite <- Hh; apply removeGame_host, Hg).
  split; [rewrite removeGame_lookup_ne by exact Hne; exact Ho|].
  split; [exact Hp|].
  intros now ev Hev. apply on_without_currentGame; [exact Hev|].
  apply currentGame_None. left. exact Hp.
Qed.

Lemma X15_removeGame_unbinds_host_of_other_game_witness :
  let gm :=
    (on "socketA" 3 (CreateGame "Alice" [1; 2; 3; 4; 5; 6]%nat) gm_created).1 in
  let gm' := cleanupInactiveGames 300002 gm in
  playerSockets gm !! "socketA"%string = Some "123456"%string /\
  gm' = removeGame "ABCDEF" gm /\
  host <$> activeGames gm' !! "123456"%string = Some "socketA"%string /\
  on "socketA" 300003 GameEnd gm' = (gm', []).
Proof.
  cbn zeta.
  split; [vm_compute; reflexivity|].
  assert (Heq : cleanupInactiveGames 300002
                  (on "socketA" 3 (CreateGame "Alice" [1; 2; 3; 4; 5; 6]%nat)
                      gm_created).1
                = removeGame "ABCDEF"
                    (on "socketA" 3 (CreateGame "Alice" [1; 2; 3; 4; 5; 6]%nat)
                        gm_created).1)
    by (vm_compute; reflexivity).
  split; [exact Heq|]. rewrite Heq.
  pose proof (X15_removeGame_unbinds_host_of_other_game
                (on "socketA" 3 (CreateGame "Alice" [1; 2; 3; 4; 5; 6]%nat)
                    gm_created).1
                "ABCDEF"
                {| id := "ABCDEF"; host := "socketA"; hostName := "Alice";
                   guest := None; guestName := None; ball := VNull;
                   leftScore := VNum 0; rightScore := VNum 0;
                   leftPaddle_y := VNum 0; rightPaddle_y := VNum 0;
                   remainingTime := VNum 120; lastActivity := 0;
                   status := waiting |}
                "123456"
                {| id := "123456"; host := "socketA"; hostName := "Alice";
                   guest := None; guestName := None; ball := VNull;
                   leftScore := VNum 0; rightScore := VNum 0;
                   leftPaddle_y := VNum 0; rightPaddle_y := VNum 0;
                   remainingTime := VNum 120; lastActivity := 3;
                   status := waiting |}
                "socketA") as H.
  cbn zeta in H. destruct H as (Hother & _ & Hdrop).
  - vm_compute. reflexivity.
  - reflexivity.
  - vm_compute. reflexivity.
  - reflexivity.
  - discriminate.
  - split; [rewrite Hother; reflexivity|].
    apply Hdrop. reflexivity.
Defined.

(** ** Round trips *)

(** X16.  Creating a game under an id that is not in the table, by a
    connection without a membership entry, and cancelling it by that id
    gives back the manager one started from, and the cancellation emits
    nothing. *)
Theorem X16_createGame_then_cancelGame socketId now1 now2 playerName ds gm :
  activeGames gm !! generateGameId ds = None ->
  playerSockets gm !! socketId = None ->
  on socketId now2 (CancelGame (generateGameId ds))
     (on socketId now1 (CreateGame playerName ds) gm).1
  = (gm, []).
Proof.
  intros Hg Hp. simpl. unfold onCancelGame. simpl.
  rewrite lookup_insert_eq. simpl. rewrite String.eqb_refl.
  unfold removeGame. simpl. rewrite lookup_insert_eq. simpl.
  rewrite !delete_insert_id by assumption.
  destruct gm. reflexivity.
Qed.

Lemma X16_createGame_then_cancelGame_witness :
  on "socketA" 5 (CancelGame "ABCDEF")
     (on "socketA" 0 (CreateGame "Alice" draw_abcdef) newGameManager).1
  = (newGameManager, []).
Proof.
  apply (X16_createGame_then_cancelGame "socketA" 0 5 "Alice" draw_abcdef
           newGameManager); reflexivity.
Defined.

(** X17.  Let a connection that has no membership entry join, at time
    [now1], a game that it does not host, that is stored under a non-empty
    id and that is waiting with its guest seat and guest name empty, and let
    it disconnect later.  Then the manager is the one before the join except
    that the game's [lastActivity] is [now1]: the seat is free again and the
    membership entry is gone. *)
Theorem X17_joinGame_then_disconnect
    socketId now1 now2 playerName gm gameId game :
  activeGames gm !! gameId = Some game ->
  guest game = None -> guestName game = None -> status game = waiting ->
  gameId <> ""%string ->
  host game <> socketId ->
  playerSockets gm !! socketId = None ->
  (on socketId now2 Disconnect
      (on socketId now1 (JoinGame gameId playerName) gm).1).1
  = storeGame gameId (set_lastActivity now1 game) gm.
Proof.
  intros Hg Hgu Hgn Hs Hne Hh Hp.
  simpl. unfold onJoinGame, joinGame. rewrite Hg, Hgu. simpl.
  unfold onDisconnect, currentGame, currentGameId. simpl.
  rewrite lookup_insert_eq.
  assert (Ht : truthy gameId = true) by (apply truthy_true, Hne).
  rewrite Ht, lookup_insert_eq. simpl.
  assert (He : String.eqb socketId (host game) = false)
    by (apply String.eqb_neq; congruence).
  rewrite He, bool_decide_eq_true_2 by reflexivity. simpl.
  unfold forgetSocket, storeGame. simpl.
  rewrite insert_insert_eq, delete_insert_id by exact Hp.
  f_equal. f_equal.
  destruct game. simpl in *. subst. reflexivity.
Qed.

Lemma X17_joinGame_then_disconnect_witness :
  (on "socketB" 9 Disconnect
      (on "socketB" 7 (JoinGame "ABCDEF" "Bob") gm_created).1).1
  = (on "socketA" 7 Pong gm_created).1.
Proof.
  rewrite (X17_joinGame_then_disconnect "socketB" 7 9 "Bob" gm_created "ABCDEF"
             {| id := "ABCDEF"; host := "socketA"; hostName := "Alice";
                guest := None; guestName := None; ball := VNull;
                leftScore := VNum 0; rightScore := VNum 0;
                leftPaddle_y := VNum 0; rightPaddle_y := VNum 0;
                remainingTime := VNum 120; lastActivity := 0;
                status := waiting |});
    try reflexivity; discriminate.
Defined.

(** ** Joining *)

(** X18.  A [joinGame] for a game whose guest slot is empty succeeds whoever
    sends it: the sender takes the guest seat with its name, the status
    becomes [playing] and [lastActivity] [now] while the owner and the state
    of play stay; the sender's membership entry is set to the game,
    replacing any entry it had; the room is joined, the host is sent
    [gameStart] with the guest's name and the sender gets the success
    answer.  Other games and other membership entries are unchanged. *)
Theorem X18_joinGame_success socketId now gameId playerName gm game :
  activeGames gm !! gameId = Some game ->
  guest game = None ->
  let r := on socketId now (JoinGame gameId playerName) gm in
  r.2 = [Join gameId;
         Emit (Some (host game)) "gameStart"
           [VObj (FCons "rightPlayer" (VStr playerName) FNil)];
         Callback ReplySuccess] /\
  (exists game',
     activeGames r.1 !! gameId = Some game' /\
     guest game' = Some socketId /\ guestName game' = Some playerName /\
     status game' = playing /\ lastActivity game' = now /\
     same_identity game game' /\ same_play game game') /\
  playerSockets r.1 !! socketId = Some gameId /\
  (forall k, k <> gameId -> activeGames r.1 !! k = activeGames gm !! k) /\
  (forall c, c <> socketId -> playerSockets r.1 !! c = playerSockets gm !! c).
Proof.
  intros Hg Hgu. cbn zeta. simpl. unfold onJoinGame, joinGame.
  rewrite Hg, Hgu. simpl.
  split; [reflexivity|].
  split.
  { eexists. split; [apply lookup_insert_eq|].
    unfold same_identity, same_play. simpl. auto 15. }
  split; [apply lookup_insert_eq|].
  split; intros k Hk; apply lookup_insert_ne; congruence.
Qed.

Lemma X18_joinGame_success_witness :
  (on "socketB" 7 (JoinGame "ABCDEF" "Bob") gm_created).2
  = [Join "ABCDEF";
     Emit (Some "socketA"%string) "gameStart"
       [VObj (FCons "rightPlayer" (VStr "Bob") FNil)];
     Callback ReplySuccess] /\
  playerSockets gm_joined !! "socketB"%string = Some "ABCDEF"%string.
Proof.
  pose proof (X18_joinGame_success "socketB" 7 "ABCDEF" "Bob" gm_created
                {| id := "ABCDEF"; host := "socketA"; hostName := "Alice";
                   guest := None; guestName := None; ball := VNull;
                   leftScore := VNum 0; rightScore := VNum 0;
                   leftPaddle_y := VNum 0; rightPaddle_y := VNum 0;
                   remainingTime := VNum 120; lastActivity := 0;
                   status := waiting |}) as H.
  cbn zeta in H. destruct H as (Hact & _ & Hp & _).
  - vm_compute. reflexivity.
  - reflexivity.
  - split; [exact Hact | exact Hp].
Defined.

(** X19.  [joinGame] does not ask whether the sender already sits in a game.
    Let a connection (with a non-empty id) that is the guest of a first game
    join a second game that it does not host, that is stored under a
    non-empty id and whose guest seat is empty.  It keeps its seat in the
    first game while its membership entry moves to the second; when it then
    disconnects, only the seat in the second game is freed.  The first game
    keeps naming the departed connection as its guest, so every later
    [joinGame] for it is refused. *)
Theorem X19_guest_of_two_games_blocks_the_first
    socketId now1 now2 playerName gm firstId first secondId second :
  socketId <> ""%string ->
  activeGames gm !! firstId = Some first ->
  guest first = Some socketId ->
  activeGames gm !! secondId = Some second ->
  guest second = None ->
  host second <> socketId ->
  secondId <> ""%string ->
  let gm1 := (on socketId now1 (JoinGame secondId playerName) gm).1 in
  let gm2 := (on socketId now2 Disconnect gm1).1 in
  playerSockets gm1 !! socketId = Some secondId /\
  activeGames gm1 !! firstId = Some first /\
  activeGames gm2 !! firstId = Some first /\
  playerSockets gm2 !! socketId = None /\
  (exists second',
     activeGames gm2 !! secondId = Some second' /\ guest second' = None) /\
  (forall now c n, (joinGame now firstId c n gm2).1 = None).
Proof.
  intros Hsock Hf Hfg Hs Hsg Hsh Hne. cbn zeta.
  assert (Hdiff : firstId <> secondId).
  { intros ->. rewrite Hf in Hs. injection Hs as <-. congruence. }
  simpl. unfold onJoinGame, joinGame. rewrite Hs, Hsg. simpl.
  unfold onDisconnect, currentGame, currentGameId. simpl.
  rewrite lookup_insert_eq.
  assert (Ht : truthy secondId = true) by (apply truthy_true, Hne).
  rewrite Ht, lookup_insert_eq. simpl.
  assert (He : String.eqb socketId (host second) = false)
    by (apply String.eqb_neq; congruence).
  rewrite He, bool_decide_eq_true_2 by reflexivity. simpl.
  assert (Hf2 : <[secondId := set_status waiting
                    (set_guestName None
                       (set_guest None
                          (set_lastActivity now1
                             (set_status playing
                                (set_guestName (Some playerName)
                                   (set_guest (Some socketId) second))))))]>
                  (<[secondId := set_lastActivity now1
                       (set_status playing
                          (set_guestName (Some playerName)
                             (set_guest (Some socketId) second)))]>
                     (activeGames gm)) !! firstId = Some first).
  { rewrite !lookup_insert_ne by congruence. exact Hf. }
  split; [reflexivity|].
  split; [rewrite lookup_insert_ne by congruence; exact Hf|].
  split; [exact Hf2|].
  split; [apply lookup_delete_eq|].
  split; [eexists; split; [apply lookup_insert_eq | reflexivity]|].
  intros now c n. unfold joinGame. simpl. rewrite Hf2, Hfg. simpl.
  assert (Hts : truthy socketId = true) by (apply truthy_true, Hsock).
  rewrite Hts. reflexivity.
Qed.

Lemma X19_guest_of_two_games_blocks_the_first_witness :
  let gm :=
    (on "socketC" 8 (CreateGame "Carol" [1; 2; 3; 4; 5; 6]%nat) gm_joined).1 in
  let gm2 :=
    (on "socketB" 10 Disconnect
        (on "socketB" 9 (JoinGame "123456" "Bob") gm).1).1 in
  guest <$> activeGames gm2 !! "ABCDEF"%string = Some (Some "socketB"%string) /\
  playerSockets gm2 !! "socketB"%string = None /\
  (joinGame 11 "ABCDEF" "socketD" "Dan" gm2).1 = None.
Proof.
  cbn zeta.
  pose proof (X19_guest_of_two_games_blocks_the_first
                "socketB" 9 10 "Bob"
                (on "socketC" 8 (CreateGame "Carol" [1; 2; 3; 4; 5; 6]%nat)
                    gm_joined).1
                "ABCDEF"
                {| id := "ABCDEF"; host := "socketA"; hostName := "Alice";
                   guest := Some "socketB"%string;
                   guestName := Some "Bob"%string; ball := VNull;
                   leftScore := VNum 0; rightScore := VNum 0;
                   leftPaddle_y := VNum 0; rightPaddle_y := VNum 0;
                   remainingTime := VNum 120; lastActivity := 7;
                   status := playing |}
                "123456"
                {| id := "123456"; host := "socketC"; hostName := "Carol";
                   guest := None; guestName := None; ball := VNull;
                   leftScore := VNum 0; rightScore := VNum 0;
                   leftPaddle_y := VNum 0; rightPaddle_y := VNum 0;
                   remainingTime := VNum 120; lastActivity := 8;
                   status := waiting |}) as H.
  cbn zeta in H. destruct H as (_ & _ & Hfirst & Hp & _ & Hrefused).
  - discriminate.
  - vm_compute. reflexivity.
  - reflexivity.
  - vm_compute. reflexivity.
  - reflexivity.
  - simpl. discriminate.
  - discriminate.
  - split; [rewrite Hfirst; reflexivity|].
    split; [exact Hp | apply Hrefused].
Defined.

(** * The stand-alone server *)

Section StandaloneProperties.

Import Standalone StandaloneServer.

Lemma standalone_currentGame_Some socketId sv gameId game :
  currentGame socketId sv = Some (gameId, game) <->
  playerSockets sv !! socketId = Some gameId /\ gameId <> ""%string /\
  activeGames sv !! gameId = Some game.
Proof.
  unfold currentGame.
  destruct (playerSockets sv !! socketId) as [g|] eqn:Hp.
  - destruct (truthy g) eqn:Ht.
    + apply truthy_true in Ht.
      destruct (activeGames sv !! g) as [game'|] eqn:Hg; split.
      * intros Heq. injection Heq as <- <-. auto.
      * intros (Hp' & _ & Hg'). injection Hp' as <-. congruence.
      * discriminate.
      * intros (Hp' & _ & Hg'). injection Hp' as <-. congruence.
    + apply truthy_false in Ht. split; [discriminate|].
      intros (Hp' & Hne & _). injection Hp' as <-. contradiction.
  - split; [discriminate|]. intros (Hp' & _). discriminate.
Qed.

(** X20.  The stand-alone server tells the two refusals of [joinGame]
    apart: [gameNotFound] for an id that is not in the table, [gameFull] for
    a game whose guest slot is filled, in both cases changing nothing.  For
    a game with an empty guest slot the sender takes the seat, the status
    becomes ['starting'], the sender's membership entry is set and the host
    is sent [gameStart]; the sender itself gets no answer. *)
Theorem X20_standalone_joinGame_outcomes socketId gameId playerName sv :
  (activeGames sv !! gameId = None ->
   on socketId (JoinGame gameId playerName) sv
   = (sv, [EmitBack "gameNotFound" []])) /\
  (forall game,
     activeGames sv !! gameId = Some game ->
     truthy_opt (guest game) = true ->
     on socketId (JoinGame gameId playerName) sv
     = (sv, [EmitBack "gameFull" []])) /\
  (forall game,
     activeGames sv !! gameId = Some game ->
     guest game = None ->
     (on socketId (JoinGame gameId playerName) sv).2
     = [Join gameId;
        EmitTo (Some (host game)) "gameStart"
          [VObj (FCons "rightPlayer" (VStr playerName) FNil)]] /\
     activeGames (on socketId (JoinGame gameId playerName) sv).1 !! gameId
     = Some (set_status starting
               (set_guestName (Some playerName)
                  (set_guest (Some socketId) game))) /\
     playerSockets (on socketId (JoinGame gameId playerName) sv).1 !! socketId
     = Some gameId).
Proof.
  simpl. unfold onJoinGame. split; [|split].
  - intros Hg. rewrite Hg. reflexivity.
  - intros game Hg Ht. rewrite Hg, Ht. reflexivity.
  - intros game Hg Hgu. rewrite Hg, Hgu. simpl.
    split; [reflexivity|]. split; apply lookup_insert_eq.
Qed.

(** X21.  No handler of the stand-alone server touches the membership entry
    of a connection other than the sender, and only [createGame], a
    successful [joinGame] and [disconnect] touch the sender's: removing a
    game, by [cancelGame], [gameEnd] or the host's disconnect, leaves the
    entries that name it in place. *)
Theorem X21_standalone_membership_is_the_senders socketId ev sv c :
  c <> socketId ->
  playerSockets (on socketId ev sv).1 !! c = playerSockets sv !! c /\
  (match ev with
   | CreateGame _ _ | JoinGame _ _ | Disconnect => True
   | _ => playerSockets (on socketId ev sv).1 = playerSockets sv
   end).
Proof.
  intros Hc.
  destruct ev; simpl;
    unfold onCreateGame, onJoinGame, onCancelGame, onPaddleMove, onBallUpdate,
      onScoreUpdate, onTimerUpdate, onGameEnd, onRequestGameList, onDisconnect;
    repeat (match goal with
            | |- context [match ?x with _ => _ end] => destruct x
            end; simpl);
    split; auto;
    rewrite ?lookup_insert_ne, ?lookup_delete_ne by congruence; reflexivity.
Qed.

Lemma X21_standalone_membership_is_the_senders_witness :
  let sv :=
    (on "socketB" (JoinGame "ABCDEF" "Bob")
        (on "socketA" (CreateGame "Alice" draw_abcdef) newServer).1).1 in
  activeGames (on "socketA" GameEnd sv).1 !! "ABCDEF"%string = None /\
  playerSockets (on "socketA" GameEnd sv).1 !! "socketB"%string
  = Some "ABCDEF"%string /\
  playerSockets (on "socketA" GameEnd sv).1 = playerSockets sv.
Proof.
  cbn zeta. split; [vm_compute; reflexivity|].
  destruct (X21_standalone_membership_is_the_senders
              "socketA" GameEnd
              (on "socketB" (JoinGame "ABCDEF" "Bob")
                  (on "socketA" (CreateGame "Alice" draw_abcdef) newServer).1).1
              "socketB") as [Hc Hall].
  - discriminate.
  - split; [rewrite Hc; vm_compute; reflexivity | exact Hall].
Defined.

(** X22.  In the stand-alone server too, a [ballUpdate], [scoreUpdate],
    [timerUpdate] or [gameEnd] of a connection that is not the host of the
    game its membership entry names is dropped: nothing changes and nothing
    is emitted. *)
Theorem X22_standalone_non_host_is_dropped socketId ev sv :
  hostUpdate ev = true \/ ev = GameEnd ->
  ~ (exists gameId game,
       playerSockets sv !! socketId = Some gameId /\
       activeGames sv !! gameId = Some game /\
       host game = socketId) ->
  on socketId ev sv = (sv, []).
Proof.
  intros Hev Hnot.
  assert (Hdrop : forall gameId game,
            currentGame socketId sv = Some (gameId, game) ->
            negb (String.eqb socketId (host game)) = true).
  { intros gameId game Hc.
    apply standalone_currentGame_Some in Hc as (Hp & _ & Hg).
    apply negb_true_iff, String.eqb_neq. intros Hh. apply Hnot.
    exists gameId, game. auto. }
  destruct Hev as [Hev | ->]; [destruct ev; try discriminate Hev|]; simpl;
    unfold onBallUpdate, onScoreUpdate, onTimerUpdate, onGameEnd;
    destruct (currentGame socketId sv) as [[gameId game]|] eqn:Hc;
    try reflexivity;
    rewrite (Hdrop gameId game eq_refl); reflexivity.
Qed.

Lemma X22_standalone_non_host_is_dropped_witness :
  let sv :=
    (on "socketB" (JoinGame "ABCDEF" "Bob")
        (on "socketA" (CreateGame "Alice" draw_abcdef) newServer).1).1 in
  on "socketB" GameEnd sv = (sv, []).
Proof.
  cbn zeta. apply X22_standalone_non_host_is_dropped; [right; reflexivity|].
  intros (gameId & game & Hp & Hg & Hh).
  vm_compute in Hp. injection Hp as <-.
  vm_compute in Hg. injection Hg as <-.
  discriminate Hh.
Defined.

(** X23.  In the stand-alone server, let a connection disconnect whose
    membership entry names, under a non-empty id, a game of which it is the
    guest and not the host.  Then the game goes back to ['waiting'] with its
    guest seat and guest name cleared, so the game list shows it again; the
    connection's membership entry is deleted and the host is sent
    [guestDisconnected]. *)
Theorem X23_standalone_guest_disconnect_relists socketId sv gameId game :
  playerSockets sv !! socketId = Some gameId ->
  gameId <> ""%string ->
  activeGames sv !! gameId = Some game ->
  guest game = Some socketId ->
  host game <> socketId ->
  let r := on socketId Disconnect sv in
  r.2 = [EmitTo (Some (host game)) "guestDisconnected" []] /\
  activeGames r.1 !! gameId
  = Some (set_status waiting (set_guestName None (set_guest None game))) /\
  playerSockets r.1 !! socketId = None /\
  {| Listing.id := id game;
     Listing.name := String.append (hostName game) "'s Game" |}
  ∈ requestGameList (activeGames r.1).
Proof.
  intros Hp Hne Hg Hgu Hh. cbn zeta. simpl. unfold onDisconnect.
  assert (Hc : currentGame socketId sv = Some (gameId, game))
    by (apply standalone_currentGame_Some; auto).
  rewrite Hc.
  assert (He : String.eqb socketId (host game) = false)
    by (apply String.eqb_neq; congruence).
  rewrite He, bool_decide_eq_true_2 by exact Hgu. simpl.
  split; [reflexivity|].
  split; [apply lookup_insert_eq|].
  split; [apply lookup_delete_eq|].
  apply standalone_requestGameList_elem.
  eexists gameId, _. split; [apply lookup_insert_eq|].
  simpl. auto.
Qed.

Lemma X23_standalone_guest_disconnect_relists_witness :
  let sv :=
    (on "socketB" (JoinGame "ABCDEF" "Bob")
        (on "socketA" (CreateGame "Alice" draw_abcdef) newServer).1).1 in
  requestGameList (activeGames sv) = [] /\
  {| Listing.id := "ABCDEF"; Listing.name := "Alice's Game" |}
  ∈ requestGameList (activeGames (on "socketB" Disconnect sv).1).
Proof.
  cbn zeta. split; [vm_compute; reflexivity|].
  pose proof (X23_standalone_guest_disconnect_relists "socketB"
                (on "socketB" (JoinGame "ABCDEF" "Bob")
                    (on "socketA" (CreateGame "Alice" draw_abcdef)
                        newServer).1).1
                "ABCDEF"
                {| id := "ABCDEF"; host := "socketA"; hostName := "Alice";
                   guest := Some "socketB"%string;
                   guestName := Some "Bob"%string; ball := VNull;
                   leftScore := VNum 0; rightScore := VNum 0;
                   leftPaddle_y := VNum 0; rightPaddle_y := VNum 0;
                   remainingTime := VNum GAME_TIME; startTime := None;
                   status := starting |}) as H.
  cbn zeta in H. destruct H as (_ & _ & _ & Hlist).
  - vm_compute. reflexivity.
  - discriminate.
  - vm_compute. reflexivity.
  - reflexivity.
  - simpl. discriminate.
  - exact Hlist.
Defined.



End StandaloneProperties.
